(** * Propal_Ai voice pipeline: a shallow embedding of the Flask backend
      and of the realtime agent

    Sources embedded here:
    - [src/flask_backend/app.py]            the HTTP handlers and the metrics log;
    - [src/flask_backend/agent_helpers.py]  the three vendor adapters;
    - [src/flask_backend/livekit_agent.py]  the realtime [VoiceAgent].

    Modelling conventions.
    - Python [bytes] are [list byte]; Python [str] is [string], read as a
      sequence of code points below 256.
    - Python [dict]s (request bodies, metric entries, JSON responses) are
      [gmap string json].
    - [time.time()] readings are exact rationals ([Q], seconds); a float
      holding milliseconds rounded to two decimals is the rational
      [n # 100].
    - The vendor SDKs, the clock and the base64 codec are oracles gathered
      in the record [services]; a vendor call also receives the
      number of vendor calls made so far, so that a service may answer the
      same request differently at different moments.
    - Handlers run in the monad [M]: a state transformer over [world]
      (metrics log, clock ticks, vendor-call trace, written files) whose
      result is a value or a raised exception.  A raised exception does not
      roll the state back, as in Python. *)

From Stdlib Require Import Ascii String QArith Qround Qabs Lqa Lia.
From stdpp Require Import base option list strings gmap.

#[local] Set Warnings "-register-all".
#[local] Open Scope string_scope.
#[local] Open Scope list_scope.

Abbreviation bytes := (list Byte.byte).

(** ** Python built-ins used by the sources *)

Module Py.

(** [a[lo:hi]] for indices [0 <= lo <= hi]. *)
Definition slice {A} (a : list A) (lo hi : nat) : list A :=
  take (hi - lo) (drop lo a).

(** [range(start, stop, step)] for a positive [step]; [fuel] bounds the
    number of iterations, [stop - start] always suffices. *)
Fixpoint range_from (fuel start stop step : nat) : list nat :=
  match fuel with
  | O => []
  | S fuel' =>
      if decide (start < stop)
      then start :: range_from fuel' (start + step) stop step
      else []
  end.

Definition range (start stop step : nat) : list nat :=
  range_from (stop - start) start stop step.

(** Ceiling of the quotient, on naturals. *)
Definition ceil_div (n d : nat) : nat := (n + d - 1) / d.

(** [s.split(sep)] for a one-character separator. *)
Fixpoint split (sep : ascii) (s : string) : list string :=
  match s with
  | "" => [""]
  | String c s' =>
      if decide (c = sep) then "" :: split sep s'
      else match split sep s' with
           | h :: t => String c h :: t
           | [] => [String c ""]
           end
  end.

(** [sub in s]. *)
Fixpoint contains (sub s : string) : bool :=
  String.prefix sub s
  || match s with "" => false | String _ s' => contains sub s' end.

(** Code points below 256 for which [str.isspace] holds. *)
Definition isspace (c : ascii) : bool :=
  let n := nat_of_ascii c in
  bool_decide (9 <= n <= 13) || bool_decide (28 <= n <= 32)
  || bool_decide (n = 133) || bool_decide (n = 160).

Fixpoint lstrip (s : string) : string :=
  match s with
  | "" => ""
  | String c s' => if isspace c then lstrip s' else s
  end.

Definition rstrip (s : string) : string := String.rev (lstrip (String.rev s)).

(** [s.strip()]. *)
Definition strip (s : string) : string := rstrip (lstrip s).

(** [s.count(c)] for a one-character [c]. *)
Fixpoint count (c : ascii) (s : string) : nat :=
  match s with
  | "" => 0
  | String a s' => (if decide (a = c) then 1 else 0) + count c s'
  end.

(** Round to the nearest integer, ties to the even one. *)
Definition round_half_even (q : Q) : Z :=
  let f := Qfloor q in
  match (q - inject_Z f ?= 1 # 2)%Q with
  | Lt => f
  | Gt => (f + 1)%Z
  | Eq => if Z.even f then f else (f + 1)%Z
  end.

(** [round(x, 2)]: the result is a number of hundredths. *)
Definition round2 (x : Q) : Q := (round_half_even (x * 100) # 100)%Q.

End Py.

(** ** JSON values, exceptions and the handler monad *)

Inductive json :=
  | JNull
  | JBool (b : bool)
  | JInt (z : Z)
  | JNum (q : Q)
  | JStr (s : string)
  | JObj (o : gmap string json)
  | JArr (l : list json).

Abbreviation dict := (gmap string json).

(** Classes of the exceptions the sources distinguish; all of them are
    subclasses of [Exception]. *)
Inductive exn_class :=
  | ConnectionError | AttributeError | NameError | ValueError | TypeError
  | OtherException.

#[global] Instance exn_class_eq_dec : EqDecision exn_class.
Proof. solve_decision. Defined.

Record exn := Exn { exn_cls : exn_class; exn_msg : string }.

(** [str(e)]. *)
Definition str_exn (e : exn) : string := exn_msg e.

Inductive result (A : Type) :=
  | Ok (a : A)
  | Raise (e : exn).
Arguments Ok {A} a.
Arguments Raise {A} e.

Definition is_ok {A} (r : result A) : bool :=
  match r with Ok _ => true | Raise _ => false end.

Inductive vendor := Deepgram | Groq | ElevenLabs.

#[global] Instance vendor_eq_dec : EqDecision vendor.
Proof. solve_decision. Defined.

(** One entry of the vendor-call trace: which service was called and
    whether the call returned. *)
Record call := Call { call_vendor : vendor; call_ok : bool }.

Record world := World {
  metrics_log : list dict;          (* app.py: [metrics_log = []] *)
  clock : nat;                      (* clock readings taken so far *)
  trace : list call;                (* vendor calls made so far *)
  files : gmap string (list dict);  (* spreadsheets written by the export *)
}.

Definition M (A : Type) : Type := world -> result A * world.

#[global] Instance M_ret : MRet M := fun A a w => (Ok a, w).
#[global] Instance M_bind : MBind M := fun A B f m w =>
  match m w with
  | (Ok a, w') => f a w'
  | (Raise e, w') => (Raise e, w')
  end.
#[global] Instance M_throw : MThrow exn M := fun A e w => (Raise e, w).

(** [try: m except Exception as e: h e]. *)
Definition try_except {A} (m : M A) (h : exn -> M A) : M A := fun w =>
  match m w with
  | (Ok a, w') => (Ok a, w')
  | (Raise e, w') => h e w'
  end.

(** Raise or return a value already computed. *)
Definition lift {A} (r : result A) : M A := fun w => (r, w).

Record groq_response := GroqResponse {
  content : string;                    (* [choices[0].message.content] *)
  completion_tokens : option nat;      (* [usage.completion_tokens], when
                                          the response has [usage] *)
}.

(** The collaborators outside the repository. *)
Record services := Services {
  (* [time.time()], [datetime.now().isoformat()] and
     [datetime.now().strftime('%Y%m%d_%H%M%S')] at the n-th reading *)
  time_time : nat -> Q;
  now_isoformat : nat -> string;
  now_strftime : nat -> string;
  (* the [base64] module *)
  b64decode : string -> result bytes;
  b64encode : bytes -> string;
  (* [str(v)] for a JSON value that is not a string *)
  str_value : json -> string;
  (* Deepgram: [DeepgramClient(key)], then the request followed by the
     extraction of the first alternative's transcript *)
  DeepgramClient : option string -> result unit;
  transcribe_file : nat -> bytes -> string -> result string;
  sync_prerecorded : nat -> bytes -> string -> result string;
  (* Groq: [chat.completions.create] on the system and user messages *)
  chat_completions_create : nat -> string -> string -> result groq_response;
  (* ElevenLabs: [client.generate(text, voice, model_id)] and
     [client.text_to_speech.convert(voice_id, text)] *)
  generate : nat -> json -> json -> string -> result bytes;
  text_to_speech_convert : nat -> string -> string -> result bytes;
  (* LiveKit: [AudioBuffer.to_wave()] on the buffered frames *)
  to_wave : list bytes -> bytes;
}.

(** Reading the clock. *)
Definition tick : M nat := fun w =>
  (Ok (clock w),
   World (metrics_log w) (S (clock w)) (trace w) (files w)).

(** [metrics_log.append(entry)]. *)
Definition append_metric (entry : dict) : M unit := fun w =>
  (Ok tt, World (metrics_log w ++ [entry]) (clock w) (trace w) (files w)).

(** A vendor call: the oracle is asked at the current trace position, the
    call and its outcome are recorded. *)
Definition vendor_call {A} (v : vendor) (oracle : nat -> result A) : M A :=
  fun w =>
    let r := oracle (length (trace w)) in
    (r, World (metrics_log w) (clock w) (trace w ++ [Call v (is_ok r)]) (files w)).

Definition write_file (name : string) (rows : list dict) : M unit := fun w =>
  (Ok tt, World (metrics_log w) (clock w) (trace w) (<[name := rows]> (files w))).

Definition get_metrics_log : M (list dict) := fun w => (Ok (metrics_log w), w).

Record response := Response { status : nat; body : json }.

(** [jsonify({...}), code] for a JSON object. *)
Definition jsonify (fields : list (string * json)) (code : nat) : response :=
  Response code (JObj (list_to_map fields)).

(** The field [k] of a response whose body is a JSON object. *)
Definition field (r : response) (k : string) : option json :=
  match body r with
  | JObj o => o !! k
  | _ => None
  end.

(** [len(v)] on a JSON value. *)
Definition py_len (v : json) : result nat :=
  match v with
  | JStr s => Ok (String.length s)
  | JArr l => Ok (length l)
  | JObj o => Ok (size o)
  | _ => Raise (Exn TypeError "object has no len()")
  end.

(** ** app.py *)

Module App.

(** Which names [from deepgram import ...] finds in the installed SDK. *)
Record sdk := Sdk {
  has_DeepgramClient : bool;
  has_PrerecordedOptions : bool;
  has_Deepgram : bool;
}.

(** The module-level names the handlers read. *)
Record globals := Globals {
  MODERN_DEEPGRAM : bool;
  DEEPGRAM_AVAILABLE : bool;
  deepgram : option unit;           (* unbound when the client was never built *)
  ELEVENLABS_VOICE_ID : string;
}.

Section Handlers.
Variable E : services.

(** Lines 14-31 and 66-72: the modern import is tried first, then the
    legacy one; when either worked the client is built, and a failure
    there (an exception of the constructor, or the unbound name
    [DeepgramClient]) clears [DEEPGRAM_AVAILABLE]. *)
Definition init (installed : sdk) (DEEPGRAM_API_KEY : option string)
    (voice_id : string) : globals :=
  let modern := has_DeepgramClient installed && has_PrerecordedOptions installed in
  let available := modern || has_Deepgram installed in
  if available then
    let built :=
      if has_DeepgramClient installed then DeepgramClient E DEEPGRAM_API_KEY
      else Raise (Exn NameError "name 'DeepgramClient' is not defined") in
    match built with
    | Ok client => Globals modern true (Some client) voice_id
    | Raise _ => Globals modern false None voice_id
    end
  else Globals modern false None voice_id.

Variable G : globals.

Definition time : M Q := n ← tick; mret (time_time E n).
Definition datetime_now_isoformat : M string :=
  n ← tick; mret (now_isoformat E n).

(** [if metrics_log: ... return filename] else [return None]. *)
Definition save_metrics_to_excel : M (option string) :=
  log ← get_metrics_log;
  match log with
  | [] => mret None
  | _ :: _ =>
      n ← tick;
      let filename := "metrics_" +:+ now_strftime E n +:+ ".xlsx" in
      write_file filename log;;
      mret (Some filename)
  end.

Definition get_metrics : M response :=
  log ← get_metrics_log;
  mret (Response 200 (JArr (JObj <$> log))).

Definition export_metrics : M response :=
  filename ← save_metrics_to_excel;
  match filename with
  | Some f => mret (jsonify [("status", JStr "success"); ("filename", JStr f)] 200)
  | None =>
      mret (jsonify [("status", JStr "error");
                     ("message", JStr "No metrics to export")] 200)
  end.

(** [not data or key not in data]. *)
Definition lacks (key : string) (data : option dict) : bool :=
  match data with
  | None => true
  | Some d => bool_decide (size d = 0) || negb (bool_decide (is_Some (d !! key)))
  end.

(** [data[key]], once [key in data] is known. *)
Definition subscript (key : string) (data : option dict) : M json :=
  match data ≫= (.!! key) with
  | Some v => mret v
  | None => mthrow (Exn OtherException key)
  end.

(** [header, base64_data = audio_data_uri.split(',')]. *)
Definition split_data_uri (audio_data_uri : json) : M (string * string) :=
  match audio_data_uri with
  | JStr s =>
      match Py.split "," s with
      | [header; base64_data] => mret (header, base64_data)
      | [] | [_] => mthrow (Exn ValueError "not enough values to unpack (expected 2)")
      | _ => mthrow (Exn ValueError "too many values to unpack (expected 2)")
      end
  | _ => mthrow (Exn AttributeError "object has no attribute 'split'")
  end.

(** [header.split(':')[1].split(';')[0] if ':' in header else "audio/wav"]. *)
Definition mime_type_of (header : string) : string :=
  if Py.contains ":" header then
    match Py.split ":" header with
    | _ :: after :: _ =>
        match Py.split ";" after with
        | m :: _ => m
        | [] => ""
        end
    | _ => ""
    end
  else "audio/wav".

(** The Deepgram request of lines 128-148, modern or legacy shape. *)
Definition deepgram_transcribe (audio_binary : bytes) (mime_type : string)
    : M string :=
  match deepgram G with
  | None => mthrow (Exn NameError "name 'deepgram' is not defined")
  | Some _ =>
      if MODERN_DEEPGRAM G
      then vendor_call Deepgram (fun n => transcribe_file E n audio_binary mime_type)
      else vendor_call Deepgram (fun n => sync_prerecorded E n audio_binary mime_type)
  end.

(** The three latency fields every stage entry carries. *)
Definition latency_fields (kind timestamp : string) (total service : Q)
    : list (string * json) :=
  [("timestamp", JStr timestamp);
   ("type", JStr kind);
   ("total_latency", JNum (Py.round2 (total * 1000)));
   ("service_latency", JNum (Py.round2 (service * 1000)));
   ("processing_overhead", JNum (Py.round2 ((total - service) * 1000)))].

Definition error_response (message : string) (code : nat) : response :=
  jsonify [("error", JStr message)] code.

(** [POST /api/stt]. *)
Definition speech_to_text (data : option dict) : M response :=
  start_time ← time;
  if negb (DEEPGRAM_AVAILABLE G)
  then mret (error_response "Deepgram SDK not available" 500)
  else
    try_except
      (if lacks "audioDataUri" data
       then mret (error_response "No audio data provided" 400)
       else
         audio_data_uri ← subscript "audioDataUri" data;
         '(header, base64_data) ← split_data_uri audio_data_uri;
         audio_binary ← lift (b64decode E base64_data);
         let mime_type := mime_type_of header in
         deepgram_start ← time;
         transcript ← deepgram_transcribe audio_binary mime_type;
         deepgram_end ← time;
         end_time ← time;
         let stt_latency := (end_time - start_time)%Q in
         let deepgram_latency := (deepgram_end - deepgram_start)%Q in
         timestamp ← datetime_now_isoformat;
         let metric_entry : dict :=
           list_to_map (latency_fields "stt" timestamp stt_latency deepgram_latency) in
         append_metric metric_entry;;
         mret (jsonify [("transcription", JStr transcript);
                        ("metrics", JObj metric_entry)] 200))
      (fun e => mret (error_response (str_exn e) 500)).

(** The f-string prompt of lines 188-192 and 366-370. *)
Definition nl : string := String "010" "".
Definition indent : string := "        ".
Definition prompt_of (transcription : string) : string :=
  "You are a helpful voice assistant for a small business. " +:+ nl +:+
  indent +:+ "The user said: '" +:+ transcription +:+ "'" +:+ nl +:+
  indent +:+ nl +:+
  indent +:+ "Respond naturally and concisely, keeping your response under 3 sentences when possible." +:+ nl +:+
  indent.

Definition system_message : string :=
  "You are a helpful voice assistant that provides concise, accurate responses.".

(** [str(v)] as an f-string interpolates it. *)
Definition format_value (v : json) : string :=
  match v with
  | JStr s => s
  | _ => str_value E v
  end.

Definition tokens_field (r : groq_response) : json :=
  match completion_tokens r with
  | Some n => JInt (Z.of_nat n)
  | None => JNull
  end.

(** [POST /api/llm]. *)
Definition generate_response (data : option dict) : M response :=
  start_time ← time;
  try_except
    (if lacks "transcription" data
     then mret (error_response "No transcription provided" 400)
     else
       transcription ← subscript "transcription" data;
       let prompt := prompt_of (format_value transcription) in
       llm_start ← time;
       groq_response ←
         vendor_call Groq (fun n => chat_completions_create E n system_message prompt);
       llm_end ← time;
       let response_text := content groq_response in
       end_time ← time;
       let llm_latency := (end_time - start_time)%Q in
       let groq_latency := (llm_end - llm_start)%Q in
       let ttft :=
         match completion_tokens groq_response with
         | Some n => bool_decide (0 < n)
         | None => true
         end in
       timestamp ← datetime_now_isoformat;
       let metric_entry : dict :=
         list_to_map (latency_fields "llm" timestamp llm_latency groq_latency
                      ++ [("ttft", JBool ttft);
                          ("tokens", tokens_field groq_response)]) in
       append_metric metric_entry;;
       mret (jsonify [("response", JStr response_text);
                      ("metrics", JObj metric_entry)] 200))
    (fun e => mret (error_response (str_exn e) 500)).

Definition model_id : string := "eleven_multilingual_v2".

(** [POST /api/tts]. *)
Definition text_to_speech (data : option dict) : M response :=
  start_time ← time;
  try_except
    (if lacks "text" data
     then mret (error_response "No text provided" 400)
     else
       text ← subscript "text" data;
       let voice_id :=
         default (JStr (ELEVENLABS_VOICE_ID G)) (data ≫= (.!! "voiceId")) in
       tts_start ← time;
       audio ← vendor_call ElevenLabs (fun n => generate E n text voice_id model_id);
       tts_end ← time;
       let audio_base64 := b64encode E audio in
       end_time ← time;
       let tts_latency := (end_time - start_time)%Q in
       let elevenlabs_latency := (tts_end - tts_start)%Q in
       timestamp ← datetime_now_isoformat;
       text_length ← lift (py_len text);
       let metric_entry : dict :=
         list_to_map (latency_fields "tts" timestamp tts_latency elevenlabs_latency
                      ++ [("text_length", JInt (Z.of_nat text_length))]) in
       append_metric metric_entry;;
       mret (jsonify [("audio", JStr audio_base64);
                      ("metrics", JObj metric_entry)] 200))
    (fun e => mret (error_response (str_exn e) 500)).

(** [POST /api/conversation], stage 1 (lines 309-358): returns the
    transcription and the stage's metric entry, already appended. *)
Definition conversation_stt (data : option dict) : M (string * dict) :=
  stt_start ← time;
  audio_data_uri ← subscript "audioDataUri" data;
  '(header, base64_data) ← split_data_uri audio_data_uri;
  audio_binary ← lift (b64decode E base64_data);
  let mime_type := mime_type_of header in
  deepgram_start ← time;
  transcription ← deepgram_transcribe audio_binary mime_type;
  deepgram_end ← time;
  stt_end ← time;
  let stt_latency := (stt_end - stt_start)%Q in
  let deepgram_latency := (deepgram_end - deepgram_start)%Q in
  timestamp ← datetime_now_isoformat;
  let stt_metrics : dict :=
    list_to_map (latency_fields "stt" timestamp stt_latency deepgram_latency) in
  append_metric stt_metrics;;
  mret (transcription, stt_metrics).

(** Stage 2 (lines 362-409): returns the reply, [ttft] and the entry. *)
Definition conversation_llm (transcription : string) : M (string * Q * dict) :=
  llm_start ← time;
  let prompt := prompt_of transcription in
  groq_start ← time;
  groq_response ←
    vendor_call Groq (fun n => chat_completions_create E n system_message prompt);
  groq_end ← time;
  let response_text := content groq_response in
  llm_end ← time;
  let llm_latency := (llm_end - llm_start)%Q in
  let groq_latency := (groq_end - groq_start)%Q in
  now ← time;
  let ttft := (now - llm_start)%Q in
  timestamp ← datetime_now_isoformat;
  let llm_metrics : dict :=
    list_to_map (latency_fields "llm" timestamp llm_latency groq_latency
                 ++ [("ttft", JBool true);
                     ("tokens", tokens_field groq_response)]) in
  append_metric llm_metrics;;
  mret (response_text, ttft, llm_metrics).

(** Stage 3 (lines 412-441): returns the encoded audio and the entry. *)
Definition conversation_tts (response_text : string) : M (string * dict) :=
  tts_start ← time;
  elevenlabs_start ← time;
  audio ←
    vendor_call ElevenLabs
      (fun n => generate E n (JStr response_text) (JStr (ELEVENLABS_VOICE_ID G)) model_id);
  elevenlabs_end ← time;
  let audio_base64 := b64encode E audio in
  tts_end ← time;
  let tts_latency := (tts_end - tts_start)%Q in
  let elevenlabs_latency := (elevenlabs_end - elevenlabs_start)%Q in
  timestamp ← datetime_now_isoformat;
  let tts_metrics : dict :=
    list_to_map (latency_fields "tts" timestamp tts_latency elevenlabs_latency
                 ++ [("text_length", JInt (Z.of_nat (String.length response_text)))]) in
  append_metric tts_metrics;;
  mret (audio_base64, tts_metrics).

(** [stage_metrics['total_latency']]. *)
Definition total_latency_of (entry : dict) : json :=
  default JNull (entry !! "total_latency").

(** [POST /api/conversation]. *)
Definition process_conversation (data : option dict) : M response :=
  start_time ← time;
  eou_start ← time;
  if negb (DEEPGRAM_AVAILABLE G)
  then mret (error_response "Deepgram SDK not available" 500)
  else
    try_except
      (if lacks "audioDataUri" data
       then mret (error_response "No audio data provided" 400)
       else
         '(transcription, stt_metrics) ← conversation_stt data;
         now ← time;
         let eou_time := (now - eou_start)%Q in
         '(response_text, ttft, llm_metrics) ← conversation_llm transcription;
         '(audio_base64, tts_metrics) ← conversation_tts response_text;
         now ← time;
         let ttfb := (now - start_time)%Q in
         end_time ← time;
         let total_latency := (end_time - start_time)%Q in
         timestamp ← datetime_now_isoformat;
         let full_metrics : dict :=
           list_to_map
             [("timestamp", JStr timestamp);
              ("type", JStr "conversation");
              ("total_latency", JNum (Py.round2 (total_latency * 1000)));
              ("eou_delay", JNum (Py.round2 (eou_time * 1000)));
              ("ttft", JNum (Py.round2 (ttft * 1000)));
              ("ttfb", JNum (Py.round2 (ttfb * 1000)));
              ("stt_latency", total_latency_of stt_metrics);
              ("llm_latency", total_latency_of llm_metrics);
              ("tts_latency", total_latency_of tts_metrics);
              ("text_length", JInt (Z.of_nat (String.length response_text)))] in
         append_metric full_metrics;;
         mret (jsonify [("transcription", JStr transcription);
                        ("response", JStr response_text);
                        ("audio", JStr audio_base64);
                        ("metrics", JObj full_metrics)] 200))
      (fun e => mret (error_response (str_exn e) 500)).

(** The routes of the application. *)
Inductive request :=
  | GetMetrics
  | GetMetricsExport
  | PostStt (data : option dict)
  | PostLlm (data : option dict)
  | PostTts (data : option dict)
  | PostConversation (data : option dict).

Definition handle (r : request) : M response :=
  match r with
  | GetMetrics => get_metrics
  | GetMetricsExport => export_metrics
  | PostStt data => speech_to_text data
  | PostLlm data => generate_response data
  | PostTts data => text_to_speech data
  | PostConversation data => process_conversation data
  end.

(** Serving requests one after the other; the state left by one is the
    state the next one starts from. *)
Fixpoint serve (reqs : list request) (w : world) : world :=
  match reqs with
  | [] => w
  | r :: rest => serve rest (handle r w).2
  end.

End Handlers.
End App.

(** ** Chunked streaming (livekit_agent.py, [text_stream]) *)

Definition chunk_size : nat := 1024.

(** [for i in range(0, len(audio_binary), chunk_size):
       yield audio_binary[i:i+chunk_size]]
    for an arbitrary positive chunk size [c]. *)
Definition chunks_of (c : nat) (audio_binary : bytes) : list bytes :=
  (fun i => Py.slice audio_binary i (i + c)) <$> Py.range 0 (length audio_binary) c.

Definition text_stream (audio_binary : bytes) : list bytes :=
  chunks_of chunk_size audio_binary.

(** ** agent_helpers.py *)

(** Python truthiness of an optional string ([os.getenv] result). *)
Definition truthy (key : option string) : bool :=
  match key with
  | Some (String _ _) => true
  | _ => false
  end.

Module Helpers.

Record globals := Globals {
  DEEPGRAM_API_KEY : option string;
  ELEVENLABS_API_KEY : option string;
  ELEVENLABS_VOICE_ID : string;
  GROQ_API_KEY : option string;
  deepgram_client : option unit;
  groq_client : option unit;
  elevenlabs_client : option unit;
}.

(** Lines 24-53: each client starts as [None] and is built only when its
    key is set; an exception of the constructor is logged and leaves
    [None]. *)
Definition build_client (constructor : option string -> result unit)
    (key : option string) : option unit :=
  if truthy key then
    match constructor key with
    | Ok client => Some client
    | Raise _ => None
    end
  else None.

Definition default_voice : string := "21m00Tcm4TlvDq8ikWAM".

(** Lines 19-53, from the four environment variables and the three
    constructors [DeepgramClient], [groq.Client] and [ElevenLabs]. *)
Definition init (new_deepgram new_groq new_elevenlabs : option string -> result unit)
    (deepgram_key elevenlabs_key voice_id groq_key : option string) : globals :=
  Globals deepgram_key elevenlabs_key (default default_voice voice_id) groq_key
    (build_client new_deepgram deepgram_key)
    (build_client new_groq groq_key)
    (build_client new_elevenlabs elevenlabs_key).

Section Adapters.
Variable E : services.
Variable G : globals.

(** [raise] inside [except Exception as e:] re-raises [e]. *)
Definition reraise {A} (m : M A) : M A := try_except m (fun e => mthrow e).

Definition transcribe_audio_data (audio_binary : bytes) (mime_type : string)
    : M string :=
  match deepgram_client G with
  | None => mthrow (Exn ConnectionError "Deepgram client not initialized.")
  | Some _ =>
      reraise
        (vendor_call Deepgram (fun n => transcribe_file E n audio_binary mime_type))
  end.

Definition prompt_of (transcription : string) : string :=
  "You are a helpful voice assistant for a small business." +:+ App.nl +:+
  App.indent +:+ "The user said: '" +:+ transcription +:+ "'" +:+ App.nl +:+
  App.indent +:+ "Respond naturally and concisely, keeping your response under 3 sentences when possible.".

Definition get_llm_response (transcription : string) : M string :=
  match groq_client G with
  | None => mthrow (Exn ConnectionError "Groq client not initialized.")
  | Some _ =>
      reraise
        (groq_response ←
           vendor_call Groq
             (fun n => chat_completions_create E n App.system_message
                         (prompt_of transcription));
         mret (content groq_response))
  end.

(** [except AttributeError as ae]: one retry through [client.generate]
    when the message names the missing method, otherwise re-raise. *)
Definition synthesize_speech (text : string) : M bytes :=
  match elevenlabs_client G with
  | None => mthrow (Exn ConnectionError "ElevenLabs client not configured.")
  | Some _ =>
      try_except
        (vendor_call ElevenLabs
           (fun n => text_to_speech_convert E n (ELEVENLABS_VOICE_ID G) text))
        (fun e =>
           if decide (exn_cls e = AttributeError) then
             if Py.contains "text_to_speech" (str_exn e)
                || Py.contains "convert" (str_exn e)
             then
               try_except
                 (vendor_call ElevenLabs
                    (fun n => generate E n (JStr text)
                                (JStr (ELEVENLABS_VOICE_ID G)) App.model_id))
                 (fun e_fallback =>
                    mthrow (Exn ConnectionError
                              ("ElevenLabs TTS failed after fallback: "
                               +:+ str_exn e_fallback)))
             else mthrow e
           else mthrow e)
  end.

End Adapters.
End Helpers.

(** ** livekit_agent.py *)

Module Agent.
Import Helpers.

(** A stream handed to the transport: the chunks obtained by iterating
    it to the end.  The body of an async generator only runs then. *)
Abbreviation stream := (M (list bytes)).

Definition stt_no_connection : string :=
  "Sorry, I couldn't connect to the transcription service.".
Definition stt_trouble : string := "Sorry, I had trouble understanding that.".
Definition llm_no_key : string := "I'm sorry, I can't process your request right now.".
Definition llm_clarification : string := "I didn't catch that, could you please repeat?".
Definition llm_no_connection : string := "Sorry, I couldn't connect to the language model.".
Definition llm_trouble : string := "I'm having trouble thinking of a response.".

Section VoiceAgent.
Variable E : services.
Variable G : globals.

(** [_stt_fn]: the buffer is reset, every frame of the stream is
    appended, and the wave file of the buffer is transcribed. *)
Definition _stt_fn (audio_stream : list bytes) : M string :=
  if negb (truthy (DEEPGRAM_API_KEY G)) then mret ""
  else
    let _audio_buffer := foldl (fun buffer frame => buffer ++ [frame]) [] audio_stream in
    let audio_data := to_wave E _audio_buffer in
    try_except
      (transcribe_audio_data E G audio_data "audio/wav")
      (fun e =>
         if decide (exn_cls e = ConnectionError) then mret stt_no_connection
         else mret stt_trouble).

Definition _llm_fn (transcription : string) : M string :=
  if negb (truthy (GROQ_API_KEY G)) then mret llm_no_key
  else if bool_decide (transcription = "")
          || bool_decide (Py.strip transcription = stt_trouble)
  then mret llm_clarification
  else
    try_except
      (get_llm_response E G transcription)
      (fun e =>
         if decide (exn_cls e = ConnectionError) then mret llm_no_connection
         else mret llm_trouble).

(** The texts the two stages put in the place of a result. *)
Definition stt_canned : list string := [""; stt_no_connection; stt_trouble].
Definition llm_canned : list string :=
  [llm_no_key; llm_clarification; llm_no_connection; llm_trouble].

Definition empty_stream : stream := mret [].

(** [error_stream] and [fallback_stream] differ by their message only. *)
Definition apology_stream (message : string) : stream :=
  try_except
    (error_audio_binary ← synthesize_speech E G message;
     mret (chunks_of chunk_size error_audio_binary))
    (fun _ => mret []).

Definition error_message : string :=
  "I'm sorry, I couldn't generate the audio response.".
Definition fallback_message : string :=
  "There was an error with the speech synthesis.".

Definition error_stream : stream := apology_stream error_message.
Definition fallback_stream : stream := apology_stream fallback_message.

(** The text synthesised first, and discarded, when the text to speak
    is empty or one of the two canned replies of line 116. *)
Definition issue_message : string := "I'm sorry, there was an issue.".

(** The test of line 116. *)
Definition skipped_text (text : string) : bool :=
  bool_decide (text = "")
  || bool_decide (Py.strip text = llm_clarification)
  || bool_decide (Py.strip text = llm_trouble).

Definition _tts_fn (text : string) : M stream :=
  if negb (truthy (ELEVENLABS_API_KEY G))
  then mthrow (Exn ConnectionError "TTS service not configured.")
  else
    early ←
      (if skipped_text text then
         try_except
           (synthesize_speech E G issue_message;; mret None)
           (fun _ => mret (Some empty_stream))
       else mret None);
    match early with
    | Some s => mret s
    | None =>
        try_except
          (audio_binary ← synthesize_speech E G text;
           mret (mret (text_stream audio_binary)))
          (fun e =>
             if decide (exn_cls e = ConnectionError) then mret error_stream
             else mret fallback_stream)
    end.

End VoiceAgent.
End Agent.

(** ** Properties of runs, used in the statements below *)

(** The vendor calls of one request stop at the first one that fails. *)
Fixpoint stops_at_failure (calls : list call) : bool :=
  match calls with
  | [] => true
  | c :: rest =>
      if call_ok c then stops_at_failure rest
      else match rest with [] => true | _ :: _ => false end
  end.

(** The stage whose vendor call is [c], as the metric entries name it. *)
Definition stage_of (v : vendor) : string :=
  match v with
  | Deepgram => "stt"
  | Groq => "llm"
  | ElevenLabs => "tts"
  end.

(** The stages that completed: those whose vendor call returned. *)
Definition completed_stages (calls : list call) : list string :=
  (fun c => stage_of (call_vendor c)) <$> filter (fun c => call_ok c = true) calls.

Definition type_of (entry : dict) : option json := entry !! "type".

(** What the code stores in a stage entry: the three latency fields are
    the roundings of [T], [S] and [T - S] (in milliseconds) for the measured
    durations [T] and [S]; the stored overhead is then within one hundredth
    of the difference of the two stored latencies. *)
Definition stage_entry (entry : dict) : Prop :=
  exists (kind : string) (T S : Q),
    kind ∈ ["stt"; "llm"; "tts"]
    /\ entry !! "type" = Some (JStr kind)
    /\ entry !! "total_latency" = Some (JNum (Py.round2 (T * 1000)))
    /\ entry !! "service_latency" = Some (JNum (Py.round2 (S * 1000)))
    /\ entry !! "processing_overhead" = Some (JNum (Py.round2 ((T - S) * 1000)))
    /\ (Qabs (Py.round2 ((T - S) * 1000)
              - (Py.round2 (T * 1000) - Py.round2 (S * 1000))) <= 1 # 100)%Q.

Definition conversation_entry (entry : dict) : Prop :=
  entry !! "type" = Some (JStr "conversation").

(** [entry[k]] when it is a float. *)
Definition num_field (entry : dict) (k : string) : option Q :=
  match entry !! k with
  | Some (JNum q) => Some q
  | _ => None
  end.

(** The value a run returned, when it did not raise. *)
Definition answer {A} (run : result A * world) : option A :=
  match run.1 with
  | Ok a => Some a
  | Raise _ => None
  end.

(** The HTTP status a handler run answered with. *)
Definition status_of (run : result response * world) : option nat :=
  status <$> answer run.

(** The field names of a response whose body is a JSON object. *)
Definition keys (r : response) : list string :=
  match body r with
  | JObj o => (map_to_list o).*1
  | _ => []
  end.

(** A stage entry of the given kind. *)
Definition entry_of_kind (kind : string) (entry : dict) : Prop :=
  stage_entry entry /\ entry !! "type" = Some (JStr kind).

(** An entry the handlers may append. *)
Definition recorded_entry (entry : dict) : Prop :=
  stage_entry entry \/ conversation_entry entry.

(** The ways one [POST /api/conversation] can end: the response [r], the
    vendor calls made and the metric entries appended. *)
Inductive conversation_outcome (r : response) (calls : list call) (new : list dict)
    : Prop :=
  | Rejected (message : string) (code : nat) :
      r = App.error_response message code ->
      code = 400 \/ code = 500 ->
      calls = [] -> new = [] ->
      conversation_outcome r calls new
  | SttFailed (message : string) :
      r = App.error_response message 500 ->
      calls = [Call Deepgram false] -> new = [] ->
      conversation_outcome r calls new
  | LlmFailed (message : string) (stt : dict) :
      r = App.error_response message 500 ->
      calls = [Call Deepgram true; Call Groq false] ->
      new = [stt] -> entry_of_kind "stt" stt ->
      conversation_outcome r calls new
  | TtsFailed (message : string) (stt llm : dict) :
      r = App.error_response message 500 ->
      calls = [Call Deepgram true; Call Groq true; Call ElevenLabs false] ->
      new = [stt; llm] -> entry_of_kind "stt" stt -> entry_of_kind "llm" llm ->
      conversation_outcome r calls new
  | Completed (transcription response_text audio_base64 : string)
      (stt llm tts full : dict) :
      r = jsonify [("transcription", JStr transcription);
                   ("response", JStr response_text);
                   ("audio", JStr audio_base64);
                   ("metrics", JObj full)] 200 ->
      calls = [Call Deepgram true; Call Groq true; Call ElevenLabs true] ->
      new = [stt; llm; tts; full] ->
      entry_of_kind "stt" stt -> entry_of_kind "llm" llm ->
      entry_of_kind "tts" tts -> conversation_entry full ->
      conversation_outcome r calls new.

(** A handler that always answers, appends only entries of the shapes
    above to the metrics log and writes no file. *)
Definition appends_recorded (handler : M response) : Prop :=
  forall w, exists r w' new,
    handler w = (Ok r, w')
    /\ metrics_log w' = metrics_log w ++ new
    /\ Forall recorded_entry new
    /\ files w' = files w.

(** ** Concrete collaborators, for the examples *)

Module Demo.

Definition zeros : bytes := [Byte.x00; Byte.x00; Byte.x00].

(** Clock readings in microseconds; the last one repeats. *)
Definition readings : list Z := [0; 500; 506; 1004]%Z.
Definition time_time (n : nat) : Q := (nth n readings 1004%Z # 1000000)%Q.

(** [base64.b64decode], right on the one payload the examples send. *)
Definition b64decode (s : string) : result bytes :=
  if decide (s = "AAAA") then Ok zeros
  else Raise (Exn OtherException "Incorrect padding").
Definition b64encode (b : bytes) : string :=
  match b with
  | [Byte.x00; Byte.x00; Byte.x00] => "AAAA"
  | _ => ""
  end.

Definition DeepgramClient (key : option string) : result unit :=
  if truthy key then Ok tt
  else Raise (Exn OtherException "Deepgram API key is required").

Definition reply : groq_response := GroqResponse "Hi there." (Some 3).

(** Services that all answer, but for the three calls given. *)
Definition services_with
    (transcribe : result string) (chat : result groq_response)
    (synthesize : json -> result bytes) : services :=
  Services time_time
    (fun _ => "2025-01-01T00:00:00.000000") (fun _ => "20250101_000000")
    b64decode b64encode (fun _ => "None")
    DeepgramClient
    (fun _ _ _ => transcribe) (fun _ _ _ => transcribe)
    (fun _ _ _ => chat)
    (fun _ text _ _ => synthesize text)
    (fun _ _ text => synthesize (JStr text))
    (fun frames => mjoin frames).

Definition all_up : services :=
  services_with (Ok "hello") (Ok reply) (fun _ => Ok zeros).

Definition timeout : exn := Exn ConnectionError "timeout".

Definition stt_down : services :=
  services_with (Raise timeout) (Ok reply) (fun _ => Ok zeros).
Definition llm_down : services :=
  services_with (Ok "hello") (Raise timeout) (fun _ => Ok zeros).

(** Synthesis fails on the reply and works on every other text. *)
Definition tts_down_on_reply : services :=
  services_with (Ok "hello") (Ok reply)
    (fun text =>
       match text with
       | JStr "Hi there." => Raise (Exn OtherException "quota exceeded")
       | _ => Ok zeros
       end).

Definition tts_down : services :=
  services_with (Ok "hello") (Ok reply) (fun _ => Raise timeout).

Definition voice : string := "21m00Tcm4TlvDq8ikWAM".
Definition modern : App.sdk := App.Sdk true true true.

Definition app_globals (E : services) : App.globals :=
  App.init E modern (Some "dg-key") voice.

Definition agent_globals : Helpers.globals :=
  Helpers.Globals (Some "dg-key") (Some "el-key") voice (Some "gq-key")
    (Some tt) (Some tt) (Some tt).
Definition agent_globals_no_tts_key : Helpers.globals :=
  Helpers.Globals (Some "dg-key") None voice (Some "gq-key")
    (Some tt) (Some tt) None.

Definition fresh : world := World [] 0 [] ∅.

(** A log holding one entry. *)
Definition after_one_entry : world :=
  World [list_to_map [("type", JStr "stt")]] 5 [Call Deepgram true] ∅.

Definition audio_request : option dict :=
  Some (list_to_map [("audioDataUri", JStr "data:audio/wav;base64,AAAA")]).
Definition empty_transcription : option dict :=
  Some (list_to_map [("transcription", JStr "")]).

End Demo.


(** ** Further properties of runs *)

(** The clock never goes back. *)
Definition monotone_clock (E : services) : Prop :=
  forall n m : nat, n <= m -> (time_time E n <= time_time E m)%Q.

(** A stage entry as the handlers measure it: the total runs from the
    reading [t0] to the reading [t3], the service time from [t1] to [t2],
    with [t0 <= t1 <= t2 <= t3]. *)
Definition measured_entry (E : services) (entry : dict) : Prop :=
  exists (kind : string) (t0 t1 t2 t3 : nat),
    t0 <= t1 /\ t1 <= t2 /\ t2 <= t3
    /\ entry !! "type" = Some (JStr kind)
    /\ num_field entry "total_latency"
       = Some (Py.round2 ((time_time E t3 - time_time E t0) * 1000))
    /\ num_field entry "service_latency"
       = Some (Py.round2 ((time_time E t2 - time_time E t1) * 1000))
    /\ num_field entry "processing_overhead"
       = Some (Py.round2 ((time_time E t3 - time_time E t0
                           - (time_time E t2 - time_time E t1)) * 1000)).

(** What a monotone clock guarantees of a stage entry. *)
Definition plausible_entry (entry : dict) : Prop :=
  exists total service overhead : Q,
    num_field entry "total_latency" = Some total
    /\ num_field entry "service_latency" = Some service
    /\ num_field entry "processing_overhead" = Some overhead
    /\ (0 <= service)%Q /\ (service <= total)%Q /\ (0 <= overhead)%Q.



(** The vendor of a route that runs a single stage. *)
Definition single_stage (req : App.request) : option vendor :=
  match req with
  | App.PostStt _ => Some Deepgram
  | App.PostLlm _ => Some Groq
  | App.PostTts _ => Some ElevenLabs
  | _ => None
  end.

(** An agent step from [w] to [w']: at most [bound] vendor calls, all of
    them to [v]; no metric entry, no clock reading, no file. *)
Definition only_calls (v : vendor) (bound : nat) (w w' : world) : Prop :=
  metrics_log w' = metrics_log w
  /\ clock w' = clock w
  /\ files w' = files w
  /\ exists calls : list call,
       trace w' = trace w ++ calls
       /\ length calls <= bound
       /\ Forall (fun c => call_vendor c = v) calls.

(** ** More concrete collaborators *)

Module Samples.

(** A constructor that accepts every key. *)
Definition accepts (key : option string) : result unit := Ok tt.
(** A constructor that always raises. *)
Definition rejects (key : option string) : result unit :=
  Raise (Exn OtherException "invalid api key").

(** All keys set, all constructors working. *)
Definition configured : Helpers.globals :=
  Helpers.init accepts accepts accepts
    (Some "dg-key") (Some "el-key") None (Some "gq-key").

(** All keys set, but the ElevenLabs constructor raised. *)
Definition without_tts_client : Helpers.globals :=
  Helpers.init accepts accepts rejects
    (Some "dg-key") (Some "el-key") None (Some "gq-key").

(** [convert] is missing from the SDK; [generate] works. *)
Definition convert_missing : services :=
  Services Demo.time_time
    (fun _ => "2025-01-01T00:00:00.000000") (fun _ => "20250101_000000")
    Demo.b64decode Demo.b64encode (fun _ => "None")
    Demo.DeepgramClient
    (fun _ _ _ => Ok "hello") (fun _ _ _ => Ok "hello")
    (fun _ _ _ => Ok Demo.reply)
    (fun _ _ _ _ => Ok Demo.zeros)
    (fun _ _ _ =>
       Raise (Exn AttributeError
                "'TextToSpeechClient' object has no attribute 'convert'"))
    (fun frames => mjoin frames).

(** A clock that advances by one millisecond at every reading. *)
Definition steady_clock (n : nat) : Q := (Z.of_nat n # 1000)%Q.

Definition steady : services :=
  Services steady_clock
    (fun _ => "2025-01-01T00:00:00.000000") (fun _ => "20250101_000000")
    Demo.b64decode Demo.b64encode (fun _ => "None")
    Demo.DeepgramClient
    (fun _ _ _ => Ok "hello") (fun _ _ _ => Ok "hello")
    (fun _ _ _ => Ok Demo.reply)
    (fun _ _ _ _ => Ok Demo.zeros)
    (fun _ _ _ => Ok Demo.zeros)
    (fun frames => mjoin frames).

Definition tts_request : option dict :=
  Some (list_to_map [("text", JStr "Hi there."); ("voiceId", JStr "custom")]).
Definition two_commas_request : option dict :=
  Some (list_to_map [("audioDataUri", JStr "data:audio/wav;base64,AA,AA")]).

End Samples.

(** * Theorems *)

(** ** Facts about the chunking loop *)

Section Chunking.
Context {A : Type}.
Implicit Types (a : list A) (c i fuel : nat).

Lemma slice_step a i c : Py.slice a i (i + c) = take c (drop i a).
Proof. unfold Py.slice. by replace (i + c - i) with c by lia. Qed.

(** Reading the chunks starting at [i] gives back the suffix [drop i a]. *)
Lemma range_concat a c fuel i :
  0 < c -> length a - i <= fuel ->
  mjoin ((fun j => take c (drop j a)) <$> Py.range_from fuel i (length a) c)
  = drop i a.
Proof.
  intros Hc. revert i.
  induction fuel as [|fuel IH]; intros i Hfuel; simpl.
  - symmetry. apply drop_ge. lia.
  - destruct (decide (i < length a)) as [Hlt|Hge]; simpl.
    + rewrite IH by lia.
      rewrite <- (take_drop c (drop i a)) at 2.
      by rewrite drop_drop.
    + symmetry. apply drop_ge. lia.
Qed.

(** The loop runs [ceil((stop - i) / c)] times. *)
Lemma range_length c fuel i stop :
  0 < c -> stop - i <= fuel ->
  length (Py.range_from fuel i stop c) = Py.ceil_div (stop - i) c.
Proof.
  intros Hc. unfold Py.ceil_div. revert i.
  induction fuel as [|fuel IH]; intros i Hfuel; simpl.
  - replace (stop - i) with 0 by lia.
    symmetry. apply Nat.div_small. lia.
  - destruct (decide (i < stop)) as [Hlt|Hge]; simpl.
    + rewrite IH by lia.
      destruct (decide (i + c < stop)) as [Hmore|Hlast].
      * replace (stop - i + c - 1) with (stop - (i + c) + c - 1 + 1 * c) by lia.
        rewrite Nat.div_add by lia. lia.
      * replace (stop - (i + c)) with 0 by lia.
        rewrite (Nat.div_small (0 + c - 1)) by lia.
        apply (Nat.div_unique _ _ _ (stop - i - 1)); lia.
    + replace (stop - i) with 0 by lia.
      symmetry. apply Nat.div_small. lia.
Qed.
End Chunking.

Lemma chunks_of_concat c audio :
  0 < c -> mjoin (chunks_of c audio) = audio.
Proof.
  intros Hc. unfold chunks_of, Py.range.
  erewrite list_fmap_ext; [|intros ? j ?; apply slice_step].
  rewrite (range_concat audio c) by lia. by rewrite drop_0.
Qed.

Lemma chunks_of_length c audio :
  0 < c -> length (chunks_of c audio) = Py.ceil_div (length audio) c.
Proof.
  intros Hc. unfold chunks_of, Py.range.
  rewrite length_fmap, range_length by lia. f_equal. lia.
Qed.

(** C1: the chunks emitted by [text_stream] (chunk size 1024) concatenate
    back to the original byte string, and there are exactly
    [ceil(L / 1024)] of them, none when the byte string is empty. *)
Theorem text_stream_reassembles :
  forall audio_binary : bytes,
    mjoin (text_stream audio_binary) = audio_binary
    /\ length (text_stream audio_binary)
       = Py.ceil_div (length audio_binary) chunk_size
    /\ text_stream [] = [].
Proof.
  intros audio. unfold text_stream.
  assert (0 < chunk_size) as Hc by (unfold chunk_size; lia).
  split; [by apply chunks_of_concat|].
  split; [by apply chunks_of_length|done].
Qed.


(** ** Rounding to hundredths *)

Lemma round_half_even_close (q : Q) :
  (Qabs (inject_Z (Py.round_half_even q) - q) <= 1 # 2)%Q.
Proof.
  unfold Py.round_half_even.
  pose proof (Qfloor_le q) as Hlo.
  pose proof (Qlt_floor q) as Hhi.
  rewrite inject_Z_plus in Hhi. change (inject_Z 1) with 1%Q in Hhi.
  apply Qabs_Qle_condition.
  destruct (q - inject_Z (Qfloor q) ?= 1 # 2)%Q eqn:Hcmp.
  - apply Qeq_alt in Hcmp.
    destruct (Z.even (Qfloor q)); rewrite ?inject_Z_plus;
      change (inject_Z 1) with 1%Q; split; lra.
  - apply Qlt_alt in Hcmp. split; lra.
  - apply Qgt_alt in Hcmp. rewrite inject_Z_plus.
    change (inject_Z 1) with 1%Q. split; lra.
Qed.

Lemma round2_as_quotient (x : Q) :
  (Py.round2 x == inject_Z (Py.round_half_even (x * 100)) / 100)%Q.
Proof. unfold Py.round2. apply Qmake_Qdiv. Qed.

(** Rounding a difference and subtracting two roundings differ by at most
    one hundredth. *)
Lemma round2_sub_close (T S : Q) :
  (Qabs (Py.round2 ((T - S) * 1000)
         - (Py.round2 (T * 1000) - Py.round2 (S * 1000))) <= 1 # 100)%Q.
Proof.
  rewrite !round2_as_quotient.
  pose proof (round_half_even_close ((T - S) * 1000 * 100)) as Hc.
  pose proof (round_half_even_close (T * 1000 * 100)) as Ha.
  pose proof (round_half_even_close (S * 1000 * 100)) as Hb.
  set (zc := Py.round_half_even ((T - S) * 1000 * 100)) in *.
  set (za := Py.round_half_even (T * 1000 * 100)) in *.
  set (zb := Py.round_half_even (S * 1000 * 100)) in *.
  apply Qabs_Qle_condition in Hc, Ha, Hb.
  assert (-2 < zc - (za - zb) < 2)%Z as Hd.
  { unfold Z.sub.
    split; rewrite Zlt_Qlt;
      repeat (rewrite inject_Z_plus || rewrite inject_Z_opp);
      [change (inject_Z (-2)) with (-2)%Q | change (inject_Z 2) with 2%Q]; lra. }
  assert (-1 <= zc - (za - zb) <= 1)%Z as [Hd1 Hd2] by lia.
  unfold Z.sub in Hd1, Hd2.
  rewrite Zle_Qle in Hd1, Hd2.
  repeat (rewrite inject_Z_plus in Hd1 || rewrite inject_Z_opp in Hd1).
  repeat (rewrite inject_Z_plus in Hd2 || rewrite inject_Z_opp in Hd2).
  change (inject_Z (-1)) with (-1)%Q in Hd1. change (inject_Z 1) with 1%Q in Hd2.
  clearbody zc za zb. unfold Qdiv. change (/ 100)%Q with (1 # 100)%Q.
  apply Qabs_Qle_condition. split; lra.
Qed.

(** ** Running the handlers *)

Ltac unfold_M :=
  unfold mbind, mret, mthrow, M_bind, M_ret, M_throw, try_except, lift,
    tick, append_metric, vendor_call, write_file, get_metrics_log in *.

Ltac red_M :=
  cbn -[list_to_map App.latency_fields App.conversation_stt App.conversation_llm
        App.conversation_tts Py.round2 Py.split Py.contains Py.strip
        chunks_of text_stream].

(** Case analysis on the innermost scrutinee the run is stuck on. *)
Ltac case_step :=
  match goal with
  | |- context [match ?x with _ => _ end] =>
      lazymatch x with
      | context [match _ with _ => _ end] => fail
      | _ => destruct x eqn:?
      end
  end; red_M.

Lemma entry_of_kind_stage kind entry :
  entry_of_kind kind entry -> stage_entry entry.
Proof. by intros [? _]. Qed.

Lemma latency_fields_entry kind ts T S extra :
  kind ∈ ["stt"; "llm"; "tts"] ->
  entry_of_kind kind (list_to_map (App.latency_fields kind ts T S ++ extra)).
Proof.
  intros Hk. split; [exists kind, T, S|]; unfold App.latency_fields; simpl.
  - split; [done|].
    repeat split; try apply round2_sub_close; by simplify_map_eq.
  - by simplify_map_eq.
Qed.

Lemma latency_fields_entry_nil kind ts T S :
  kind ∈ ["stt"; "llm"; "tts"] ->
  entry_of_kind kind (list_to_map (App.latency_fields kind ts T S)).
Proof.
  intros Hk. rewrite <- (app_nil_r (App.latency_fields _ _ _ _)).
  by apply latency_fields_entry.
Qed.

Create HintDb run.
#[local] Hint Resolve latency_fields_entry latency_fields_entry_nil : run.
#[local] Hint Extern 1 (_ ∈ _) => set_solver : run.

Section AppRuns.
Variables (E : services) (G : App.globals).

Lemma conversation_stt_run data w :
  match App.conversation_stt E G data w with
  | (Ok (t, m), w') =>
      metrics_log w' = metrics_log w ++ [m]
      /\ trace w' = trace w ++ [Call Deepgram true]
      /\ files w' = files w /\ entry_of_kind "stt" m
  | (Raise e, w') =>
      metrics_log w' = metrics_log w
      /\ (trace w' = trace w \/ trace w' = trace w ++ [Call Deepgram false])
      /\ files w' = files w
  end.
Proof.
  unfold App.conversation_stt, App.time, App.datetime_now_isoformat,
    App.subscript, App.split_data_uri, App.deepgram_transcribe.
  unfold_M. red_M.
  repeat case_step; eauto 7 with run.
Qed.

Lemma conversation_llm_run transcription w :
  match App.conversation_llm E transcription w with
  | (Ok (t, ttft, m), w') =>
      metrics_log w' = metrics_log w ++ [m]
      /\ trace w' = trace w ++ [Call Groq true]
      /\ files w' = files w /\ entry_of_kind "llm" m
  | (Raise e, w') =>
      metrics_log w' = metrics_log w
      /\ trace w' = trace w ++ [Call Groq false]
      /\ files w' = files w
  end.
Proof.
  unfold App.conversation_llm, App.time, App.datetime_now_isoformat.
  unfold_M. red_M.
  repeat case_step; eauto 7 with run.
Qed.

Lemma conversation_tts_run response_text w :
  match App.conversation_tts E G response_text w with
  | (Ok (a, m), w') =>
      metrics_log w' = metrics_log w ++ [m]
      /\ trace w' = trace w ++ [Call ElevenLabs true]
      /\ files w' = files w /\ entry_of_kind "tts" m
  | (Raise e, w') =>
      metrics_log w' = metrics_log w
      /\ trace w' = trace w ++ [Call ElevenLabs false]
      /\ files w' = files w
  end.
Proof.
  unfold App.conversation_tts, App.time, App.datetime_now_isoformat.
  unfold_M. red_M.
  repeat case_step; eauto 7 with run.
Qed.

(** Run one stage of the conversation and keep what its lemma says. *)
Ltac run_stage lem :=
  let Hstage := fresh "Hstage" in
  match goal with
  | |- context [App.conversation_stt E G ?d ?W] =>
      pose proof (lem d W) as Hstage;
      destruct (App.conversation_stt E G d W) as [[[? ?]|?] [? ? ? ?]]
  | |- context [App.conversation_llm E ?t ?W] =>
      pose proof (lem t W) as Hstage;
      destruct (App.conversation_llm E t W) as [[[[? ?] ?]|?] [? ? ? ?]]
  | |- context [App.conversation_tts E G ?t ?W] =>
      pose proof (lem t W) as Hstage;
      destruct (App.conversation_tts E G t W) as [[[? ?]|?] [? ? ? ?]]
  end;
  cbn in Hstage; destruct_and? Hstage; simplify_eq; red_M.

Ltac finish_run :=
  eexists _, _, _, _; split; [reflexivity|]; cbn;
  split; [rewrite <- ?app_assoc; try reflexivity; by rewrite app_nil_r|];
  split; [rewrite <- ?app_assoc; try reflexivity; by rewrite app_nil_r|];
  split; [done|].

Lemma process_conversation_run data w :
  exists r w' calls new,
    App.process_conversation E G data w = (Ok r, w')
    /\ trace w' = trace w ++ calls
    /\ metrics_log w' = metrics_log w ++ new
    /\ files w' = files w
    /\ conversation_outcome r calls new.
Proof.
  unfold App.process_conversation, App.time, App.datetime_now_isoformat.
  unfold_M. red_M.
  destruct (App.DEEPGRAM_AVAILABLE G); red_M;
    [|finish_run; eapply Rejected; eauto].
  destruct (App.lacks _ _); red_M; [finish_run; eapply Rejected; eauto|].
  run_stage conversation_stt_run.
  2:{ destruct_or!; simplify_eq; finish_run;
        [eapply Rejected | eapply SttFailed]; eauto. }
  run_stage conversation_llm_run.
  2:{ finish_run. eapply LlmFailed; eauto. }
  run_stage conversation_tts_run.
  2:{ finish_run. eapply TtsFailed; eauto. }
  finish_run. eapply Completed; eauto.
  unfold conversation_entry. by simplify_map_eq.
Qed.

Ltac finish_handler :=
  eexists _, _, _; split; [reflexivity|]; red_M;
  split; [first [reflexivity | symmetry; apply app_nil_r]|];
  split; [|done];
  repeat (apply Forall_cons_2; [left; eapply entry_of_kind_stage; eauto with run|]);
  apply Forall_nil_2.

Lemma speech_to_text_run data : appends_recorded (App.speech_to_text E G data).
Proof.
  intros w.
  unfold App.speech_to_text, App.time, App.datetime_now_isoformat,
    App.subscript, App.split_data_uri, App.deepgram_transcribe.
  unfold_M. red_M.
  repeat case_step; finish_handler.
Qed.

Lemma generate_response_run data : appends_recorded (App.generate_response E data).
Proof.
  intros w.
  unfold App.generate_response, App.time, App.datetime_now_isoformat,
    App.subscript.
  unfold_M. red_M.
  repeat case_step; finish_handler.
Qed.

Lemma text_to_speech_run data : appends_recorded (App.text_to_speech E G data).
Proof.
  intros w.
  unfold App.text_to_speech, App.time, App.datetime_now_isoformat,
    App.subscript.
  unfold_M. red_M.
  repeat case_step; finish_handler.
Qed.

Lemma process_conversation_appends data :
  appends_recorded (App.process_conversation E G data).
Proof.
  intros w.
  destruct (process_conversation_run data w)
    as (r & w' & calls & new & Hrun & _ & Hlog & Hfiles & Hout).
  exists r, w', new. repeat split; try done.
  destruct Hout; subst;
    repeat (apply Forall_cons_2; [left; eapply entry_of_kind_stage; eassumption|]);
    try apply Forall_nil_2.
  apply Forall_cons_2; [by right|apply Forall_nil_2].
Qed.

Lemma get_metrics_run : appends_recorded App.get_metrics.
Proof. intros w. unfold App.get_metrics. unfold_M. red_M. finish_handler. Qed.

(** Every route but the export. *)
Lemma handle_run req :
  req <> App.GetMetricsExport -> appends_recorded (App.handle E G req).
Proof.
  destruct req; simpl; intros Hreq; try done;
    auto using get_metrics_run, speech_to_text_run, generate_response_run,
      text_to_speech_run, process_conversation_appends.
Qed.

(** The export: nothing is appended; a file holding the log is written
    unless the log is empty. *)
Lemma export_metrics_run w :
  exists r w',
    App.export_metrics E w = (Ok r, w')
    /\ metrics_log w' = metrics_log w
    /\ match metrics_log w with
       | [] =>
           files w' = files w
           /\ r = jsonify [("status", JStr "error");
                           ("message", JStr "No metrics to export")] 200
       | _ :: _ =>
           let filename := "metrics_" +:+ now_strftime E (clock w) +:+ ".xlsx" in
           files w' = <[filename := metrics_log w]> (files w)
           /\ r = jsonify [("status", JStr "success");
                           ("filename", JStr filename)] 200
       end.
Proof.
  unfold App.export_metrics, App.save_metrics_to_excel.
  unfold_M. red_M.
  destruct (metrics_log w) eqn:Hlog; red_M; eauto 6.
Qed.

End AppRuns.


(** ** The metrics invariant *)


(** Every route answers and appends only entries of the two shapes. *)
Lemma handle_appends_recorded E G req w :
  exists r w' new,
    App.handle E G req w = (Ok r, w')
    /\ metrics_log w' = metrics_log w ++ new
    /\ Forall recorded_entry new.
Proof.
  assert (req = App.GetMetricsExport \/ req <> App.GetMetricsExport)
    as [->|Hreq] by (destruct req; auto).
  - destruct (export_metrics_run E w) as (r & w' & Hrun & Hlog & _).
    exists r, w', []. rewrite app_nil_r. by split_and!.
  - destruct (handle_run E G req Hreq w) as (r & w' & new & ? & ? & ? & _).
    by exists r, w', new.
Qed.

Lemma serve_appends_recorded E G reqs w :
  exists new,
    metrics_log (App.serve E G reqs w) = metrics_log w ++ new
    /\ Forall recorded_entry new.
Proof.
  revert w. induction reqs as [|req reqs IH]; intros w; simpl.
  - exists []. by rewrite app_nil_r.
  - destruct (handle_appends_recorded E G req w) as (r & w' & new & Hrun & Hlog & Hnew).
    rewrite Hrun. simpl.
    destruct (IH w') as (new' & Hlog' & Hnew').
    exists (new ++ new'). rewrite Hlog', Hlog, app_assoc.
    split; [done|]. by apply Forall_app.
Qed.


(** ** [POST /api/stt] without a client *)

Lemma init_available_iff_client E installed key voice :
  App.DEEPGRAM_AVAILABLE (App.init E installed key voice) = true
  <-> is_Some (App.deepgram (App.init E installed key voice)).
Proof.
  unfold App.init.
  destruct installed as [[] [] []]; simpl;
    try destruct (DeepgramClient E key); simpl;
    split; (done || by inversion 1 || eauto).
Qed.

(** C5: when the Deepgram client was never built at start-up, whatever the
    reason, [POST /api/stt] answers 500 with an [error] field, appends no
    entry to the metrics log and calls no service. *)
Theorem stt_without_client_answers_500 :
  forall (E : services) (installed : App.sdk) (key : option string)
         (voice : string) (data : option dict) (w : world),
    App.deepgram (App.init E installed key voice) = None ->
    exists r w',
      App.speech_to_text E (App.init E installed key voice) data w = (Ok r, w')
      /\ status r = 500
      /\ field r "error" = Some (JStr "Deepgram SDK not available")
      /\ metrics_log w' = metrics_log w
      /\ trace w' = trace w.
Proof.
  intros E installed key voice data w Hclient.
  assert (App.DEEPGRAM_AVAILABLE (App.init E installed key voice) = false) as Hoff.
  { destruct (App.DEEPGRAM_AVAILABLE _) eqn:Hav; [|done].
    apply init_available_iff_client in Hav as [? Hsome]. congruence. }
  unfold App.speech_to_text, App.time. unfold_M. red_M.
  rewrite Hoff. red_M.
  eexists _, _. by repeat split.
Qed.

Lemma stt_without_client_answers_500_witness :
  App.deepgram (App.init Demo.all_up Demo.modern None Demo.voice) = None
  /\ exists r w',
       App.speech_to_text Demo.all_up
         (App.init Demo.all_up Demo.modern None Demo.voice)
         Demo.audio_request Demo.fresh = (Ok r, w')
       /\ status r = 500
       /\ field r "error" = Some (JStr "Deepgram SDK not available")
       /\ metrics_log w' = metrics_log Demo.fresh
       /\ trace w' = trace Demo.fresh.
Proof.
  split; [reflexivity|].
  apply (stt_without_client_answers_500 Demo.all_up Demo.modern None Demo.voice).
  reflexivity.
Defined.

(** ** [POST /api/conversation] *)

Lemma error_response_fields message code :
  status (App.error_response message code) = code
  /\ keys (App.error_response message code) = ["error"]
  /\ field (App.error_response message code) "error" = Some (JStr message)
  /\ field (App.error_response message code) "transcription" = None
  /\ field (App.error_response message code) "response" = None
  /\ field (App.error_response message code) "audio" = None.
Proof.
  unfold App.error_response, jsonify, keys, field. simpl.
  rewrite insert_empty, map_to_list_singleton.
  repeat split; by simplify_map_eq.
Qed.

(** C3, as stated, fails: transcription and generation succeed, synthesis
    of the reply fails (synthesis of any other text, an apology included,
    would succeed), and the response is an error without [audio] field. *)
Lemma conversation_synthesis_failure_has_no_audio :
  match App.process_conversation Demo.tts_down_on_reply
          (Demo.app_globals Demo.tts_down_on_reply)
          Demo.audio_request Demo.fresh with
  | (Ok r, w') =>
      trace w' = [Call Deepgram true; Call Groq true; Call ElevenLabs false]
      /\ status r = 500
      /\ keys r = ["error"]
      /\ field r "error" = Some (JStr "quota exceeded")
      /\ field r "audio" = None
      /\ generate Demo.tts_down_on_reply 3
           (JStr "I'm sorry, I couldn't generate the audio response.")
           (JStr Demo.voice) App.model_id = Ok Demo.zeros
  | _ => False
  end.
Proof. vm_compute. repeat split; reflexivity. Qed.

(** C3, amended: when transcription and generation succeed and the
    synthesis call fails, [POST /api/conversation] answers 500 with the
    exception's message as its only field; there is no [audio] field, no
    apology is synthesised, and the stt and llm entries stay in the log. *)
Theorem conversation_synthesis_failure_answers_500 :
  forall (E : services) (G : App.globals) (data : option dict) (w : world),
    trace (App.process_conversation E G data w).2
      = trace w ++ [Call Deepgram true; Call Groq true; Call ElevenLabs false] ->
    exists message r w' stt llm,
      App.process_conversation E G data w = (Ok r, w')
      /\ r = App.error_response message 500
      /\ keys r = ["error"]
      /\ field r "audio" = None
      /\ metrics_log w' = metrics_log w ++ [stt; llm]
      /\ entry_of_kind "stt" stt /\ entry_of_kind "llm" llm.
Proof.
  intros E G data w Htrace.
  destruct (process_conversation_run E G data w)
    as (r & w' & calls & new & Hrun & Hcalls & Hlog & _ & Hout).
  rewrite Hrun in Htrace. simpl in Htrace.
  rewrite Hcalls in Htrace. apply app_inv_head in Htrace.
  destruct Hout as [| | |message stt llm Hr Hc Hn Hstt Hllm|]; try congruence.
  subst r new.
  pose proof (error_response_fields message 500) as (_ & ? & _ & _ & _ & ?).
  exists message, (App.error_response message 500), w', stt, llm.
  split_and!; first [assumption | reflexivity].
Qed.

Lemma conversation_synthesis_failure_answers_500_witness :
  exists message r w' stt llm,
    App.process_conversation Demo.tts_down
      (Demo.app_globals Demo.tts_down) Demo.audio_request Demo.fresh = (Ok r, w')
    /\ r = App.error_response message 500
    /\ keys r = ["error"]
    /\ field r "audio" = None
    /\ metrics_log w' = metrics_log Demo.fresh ++ [stt; llm]
    /\ entry_of_kind "stt" stt /\ entry_of_kind "llm" llm.
Proof.
  apply (conversation_synthesis_failure_answers_500 Demo.tts_down
           (Demo.app_globals Demo.tts_down) Demo.audio_request Demo.fresh).
  vm_compute. reflexivity.
Defined.

(** C6, as stated, fails: a turn whose transcription fails and a turn whose
    generation fails, both with the message "timeout", get the same
    response, a 500 whose only field is [error] = "timeout": the response
    does not name the stage. *)
Lemma conversation_error_names_no_stage :
  match App.process_conversation Demo.stt_down
          (Demo.app_globals Demo.stt_down) Demo.audio_request Demo.fresh,
        App.process_conversation Demo.llm_down
          (Demo.app_globals Demo.llm_down) Demo.audio_request Demo.fresh with
  | (Ok r1, w1), (Ok r2, w2) =>
      trace w1 = [Call Deepgram false]
      /\ trace w2 = [Call Deepgram true; Call Groq false]
      /\ status r1 = 500 /\ status r2 = 500
      /\ keys r1 = ["error"] /\ keys r2 = ["error"]
      /\ field r1 "error" = Some (JStr "timeout")
      /\ field r2 "error" = Some (JStr "timeout")
  | _, _ => False
  end.
Proof. vm_compute. repeat split; reflexivity. Qed.

(** C6, amended: when [POST /api/conversation] does not answer 200, the
    response has the single field [error], holding a message (no stage
    name), so no transcription, reply or audio is returned; and the vendor
    calls of the turn stop at the first one that failed. *)
Theorem conversation_failure_returns_only_message :
  forall (E : services) (G : App.globals) (data : option dict) (w : world),
    status_of (App.process_conversation E G data w) <> Some 200 ->
    exists message r w' calls,
      App.process_conversation E G data w = (Ok r, w')
      /\ r = App.error_response message (status r)
      /\ keys r = ["error"]
      /\ field r "transcription" = None
      /\ field r "response" = None
      /\ field r "audio" = None
      /\ trace w' = trace w ++ calls
      /\ stops_at_failure calls = true.
Proof.
  intros E G data w Hstatus.
  destruct (process_conversation_run E G data w)
    as (r & w' & calls & new & Hrun & Hcalls & _ & _ & Hout).
  unfold status_of, answer in Hstatus. rewrite Hrun in Hstatus. simpl in Hstatus.
  assert (forall message code,
            r = App.error_response message code ->
            exists message r0 w0 calls0,
              (Ok r, w') = (Ok r0, w0)
              /\ r0 = App.error_response message (status r0)
              /\ keys r0 = ["error"]
              /\ field r0 "transcription" = None
              /\ field r0 "response" = None
              /\ field r0 "audio" = None
              /\ trace w0 = trace w ++ calls0
              /\ stops_at_failure calls0 = true) as Herror.
  { intros message code ->.
    pose proof (error_response_fields message code) as (Hs & ? & _ & ? & ? & ?).
    exists message, (App.error_response message code), w', calls.
    rewrite Hs. split_and!; try first [assumption | reflexivity].
    destruct Hout; subst calls; reflexivity. }
  rewrite Hrun.
  destruct Hout as [message code Hr|message Hr|message stt Hr|message stt llm Hr|
                    t rt a stt llm tts full Hr];
    try (eapply Herror; eassumption).
  exfalso. apply Hstatus. rewrite Hr. reflexivity.
Qed.

Lemma conversation_failure_returns_only_message_witness :
  exists message r w' calls,
    App.process_conversation Demo.llm_down
      (Demo.app_globals Demo.llm_down) Demo.audio_request Demo.fresh = (Ok r, w')
    /\ r = App.error_response message (status r)
    /\ keys r = ["error"]
    /\ field r "transcription" = None
    /\ field r "response" = None
    /\ field r "audio" = None
    /\ trace w' = trace Demo.fresh ++ calls
    /\ stops_at_failure calls = true.
Proof.
  apply (conversation_failure_returns_only_message Demo.llm_down
           (Demo.app_globals Demo.llm_down) Demo.audio_request Demo.fresh).
  vm_compute. discriminate.
Defined.

(** C10: a [POST /api/conversation] answered with 200 appends exactly four
    entries, of types stt, llm, tts, conversation in this order; any other
    answer appends exactly the entries of the stages whose vendor call
    returned, the calls stopping at the first failure. *)
Theorem conversation_appends_completed_stages :
  forall (E : services) (G : App.globals) (data : option dict) (w : world),
    exists r w' calls new,
      App.process_conversation E G data w = (Ok r, w')
      /\ trace w' = trace w ++ calls
      /\ metrics_log w' = metrics_log w ++ new
      /\ stops_at_failure calls = true
      /\ type_of <$> new
         = (fun kind => Some (JStr kind))
             <$> (if decide (status r = 200)
                  then ["stt"; "llm"; "tts"; "conversation"]
                  else completed_stages calls).
Proof.
  intros E G data w.
  destruct (process_conversation_run E G data w)
    as (r & w' & calls & new & Hrun & Hcalls & Hlog & _ & Hout).
  exists r, w', calls, new.
  split; [assumption|]. split; [assumption|]. split; [assumption|].
  split; [destruct Hout; subst calls; reflexivity|].
  destruct Hout as [message code Hr Hcode Hc Hn|message Hr Hc Hn
                   |message stt Hr Hc Hn [_ Hstt]
                   |message stt llm Hr Hc Hn [_ Hstt] [_ Hllm]
                   |t rt a stt llm tts full Hr Hc Hn [_ Hstt] [_ Hllm] [_ Htts] Hfull];
    subst r calls new; unfold type_of, conversation_entry in *; simpl;
    rewrite ?Hstt, ?Hllm, ?Htts, ?Hfull;
    try reflexivity.
  destruct Hcode; subst code; reflexivity.
Qed.

(** ** The metrics export *)

(** C9, as stated, fails for N = 0: with an empty log the export writes no
    file and answers with status "error". *)
Lemma export_of_empty_log_writes_no_file :
  match App.export_metrics Demo.all_up Demo.fresh with
  | (Ok r, w') =>
      metrics_log Demo.fresh = []
      /\ map_to_list (files w') = []
      /\ field r "status" = Some (JStr "error")
      /\ field r "message" = Some (JStr "No metrics to export")
      /\ field r "filename" = None
  | _ => False
  end.
Proof. vm_compute. repeat split; reflexivity. Qed.

Lemma serve_keeps_files E G reqs w :
  Forall (fun req => req <> App.GetMetricsExport) reqs ->
  files (App.serve E G reqs w) = files w.
Proof.
  intros Hreqs. revert w.
  induction Hreqs as [|req reqs Hreq _ IH]; intros w; simpl; [done|].
  destruct (handle_run E G req Hreq w) as (r & w' & new & Hrun & _ & _ & Hfiles).
  rewrite Hrun. simpl. by rewrite IH.
Qed.

(** C9, amended: when the log holds at least one entry, the export writes
    one file whose rows are exactly the entries of the log at that moment
    and answers with its name; the log itself is unchanged, and whatever
    the other routes append afterwards, the file keeps the same rows. *)
Theorem export_writes_snapshot_of_log :
  forall (E : services) (w : world) (first : dict) (rest : list dict),
    metrics_log w = first :: rest ->
    exists filename r w',
      App.export_metrics E w = (Ok r, w')
      /\ field r "status" = Some (JStr "success")
      /\ field r "filename" = Some (JStr filename)
      /\ files w' !! filename = Some (metrics_log w)
      /\ length (metrics_log w) = S (length rest)
      /\ metrics_log w' = metrics_log w
      /\ forall (G : App.globals) (reqs : list App.request),
           Forall (fun req => req <> App.GetMetricsExport) reqs ->
           files (App.serve E G reqs w') !! filename = Some (metrics_log w).
Proof.
  intros E w first rest Hlog.
  destruct (export_metrics_run E w) as (r & w' & Hrun & Hlog' & Hfiles).
  rewrite Hlog in Hfiles. destruct Hfiles as [Hfiles ->].
  exists ("metrics_" +:+ now_strftime E (clock w) +:+ ".xlsx").
  eexists. exists w'.
  rewrite <- Hlog in Hfiles.
  split_and!; try eassumption;
    try (unfold field, jsonify; simpl; by simplify_map_eq).
  - rewrite Hfiles. apply lookup_insert_eq.
  - by rewrite Hlog.
  - intros G reqs Hreqs.
    rewrite serve_keeps_files, Hfiles by done. apply lookup_insert_eq.
Qed.

Lemma export_writes_snapshot_of_log_witness :
  exists filename r w',
    App.export_metrics Demo.all_up Demo.after_one_entry = (Ok r, w')
    /\ field r "status" = Some (JStr "success")
    /\ field r "filename" = Some (JStr filename)
    /\ files w' !! filename = Some (metrics_log Demo.after_one_entry)
    /\ length (metrics_log Demo.after_one_entry) = 1
    /\ metrics_log w' = metrics_log Demo.after_one_entry
    /\ forall (G : App.globals) (reqs : list App.request),
         Forall (fun req => req <> App.GetMetricsExport) reqs ->
         files (App.serve Demo.all_up G reqs w') !! filename
           = Some (metrics_log Demo.after_one_entry).
Proof.
  apply (export_writes_snapshot_of_log Demo.all_up Demo.after_one_entry
           (list_to_map [("type", JStr "stt")]) []).
  reflexivity.
Defined.

(** ** The reply generator on an empty transcript *)

(** C4, as stated, fails: [POST /api/llm] with the transcription [""] calls
    the generation service and answers with its reply. *)
Lemma llm_route_calls_service_on_empty_transcript :
  match App.generate_response Demo.all_up Demo.empty_transcription Demo.fresh with
  | (Ok r, w') =>
      trace w' = [Call Groq true]
      /\ status r = 200
      /\ field r "response" = Some (JStr "Hi there.")
  | _ => False
  end.
Proof. vm_compute. repeat split; reflexivity. Qed.

(** ** The realtime agent *)

Ltac red_A :=
  cbn -[Helpers.synthesize_speech chunks_of text_stream Py.strip Py.contains
        Agent.apology_stream Agent.error_stream Agent.fallback_stream].

Ltac case_step_A :=
  match goal with
  | |- context [match ?x with _ => _ end] =>
      lazymatch x with
      | context [match _ with _ => _ end] => fail
      | _ => destruct x eqn:?
      end
  end; red_A.

(** C4, amended: in the realtime agent, [_llm_fn] on the empty transcript
    calls no service (the state of the world is unchanged) and returns the
    canned clarification when GROQ_API_KEY is set, the canned "can't
    process" reply when it is not; the route [POST /api/llm] has no such
    short-circuit: on the transcription [""] it calls the generation
    service once. *)
Theorem agent_llm_skips_service_on_empty_transcript :
  forall (E : services) (G : Helpers.globals) (w : world),
    Agent._llm_fn E G "" w
      = (Ok (if truthy (Helpers.GROQ_API_KEY G)
             then Agent.llm_clarification else Agent.llm_no_key), w)
    /\ trace (App.generate_response E Demo.empty_transcription w).2
       = trace w
         ++ [Call Groq
               (is_ok (chat_completions_create E (length (trace w))
                         App.system_message (App.prompt_of "")))].
Proof.
  intros E G w. split.
  - unfold Agent._llm_fn. destruct (truthy _); reflexivity.
  - unfold App.generate_response, App.time, App.datetime_now_isoformat,
      App.subscript.
    assert (App.lacks "transcription" Demo.empty_transcription = false) as ->
      by reflexivity.
    assert (Demo.empty_transcription ≫= (.!! "transcription") = Some (JStr ""))
      as -> by reflexivity.
    unfold_M. red_M.
    destruct (chat_completions_create _ _ _ _); reflexivity.
Qed.

(** C7: in the realtime agent neither [_stt_fn] nor [_llm_fn] ever raises.
    Each returns either the result of a vendor call that succeeded, or one
    of its fixed substitute texts (for [_stt_fn] the empty string when
    DEEPGRAM_API_KEY is not set) when the service is unavailable or its
    call failed; in both cases a text is handed to the next stage. *)
Theorem agent_stt_llm_return_canned_text_on_failure :
  forall (E : services) (G : Helpers.globals) (audio_stream : list bytes)
         (transcription : string) (w : world),
    (exists t w',
       Agent._stt_fn E G audio_stream w = (Ok t, w')
       /\ (trace w' = trace w ++ [Call Deepgram true]
           \/ (t ∈ Agent.stt_canned
               /\ (trace w' = trace w
                   \/ trace w' = trace w ++ [Call Deepgram false]))))
    /\ (exists t w',
          Agent._llm_fn E G transcription w = (Ok t, w')
          /\ (trace w' = trace w ++ [Call Groq true]
              \/ (t ∈ Agent.llm_canned
                  /\ (trace w' = trace w
                      \/ trace w' = trace w ++ [Call Groq false])))).
Proof.
  intros E G audio_stream transcription w. split.
  - unfold Agent._stt_fn, Helpers.transcribe_audio_data, Helpers.reraise.
    unfold_M. red_A.
    repeat case_step_A; eexists _, _; (split; [reflexivity|]); red_A;
      first [by left | right; split; [set_solver|auto]].
  - unfold Agent._llm_fn, Helpers.get_llm_response, Helpers.reraise.
    unfold_M. red_A.
    repeat case_step_A; eexists _, _; (split; [reflexivity|]); red_A;
      first [by left | right; split; [set_solver|auto]].
Qed.

Lemma apology_stream_run E G message wi :
  Agent.apology_stream E G message wi
  = match Helpers.synthesize_speech E G message wi with
    | (Ok audio, w2) => (Ok (chunks_of chunk_size audio), w2)
    | (Raise _, w2) => (Ok [], w2)
    end.
Proof.
  unfold Agent.apology_stream. unfold_M.
  by destruct (Helpers.synthesize_speech E G message wi) as [[?|?] ?].
Qed.

(** The main [try] of [_tts_fn], run from the world [wp]. *)
Ltac primary_synthesis E G text wp :=
  let Hsyn := fresh "Hsyn" in
  destruct (Helpers.synthesize_speech E G text wp) as [[?audio|?e] ?w1] eqn:Hsyn;
  red_A;
  [ eexists _, _; split; [reflexivity|]; left;
    eexists wp, _; split; [exact Hsyn|reflexivity]
  | match goal with
    | |- context [decide (?P)] => destruct (decide P)
    end;
    eexists _, _; (split; [reflexivity|]); right; left;
    [ eexists wp, _, Agent.error_message
    | eexists wp, _, Agent.fallback_message ];
    (split_and!; [exact Hsyn|set_solver|intros ?; apply apology_stream_run]) ].

(** C8, as stated, fails: without ELEVENLABS_API_KEY the stage raises
    [ConnectionError] instead of returning a stream. *)
Lemma agent_tts_raises_without_key :
  match Agent._tts_fn Demo.all_up Demo.agent_globals_no_tts_key "hello" Demo.fresh with
  | (Raise e, w') =>
      truthy (Helpers.ELEVENLABS_API_KEY Demo.agent_globals_no_tts_key) = false
      /\ exn_cls e = ConnectionError
      /\ exn_msg e = "TTS service not configured."
  | (Ok _, _) => False
  end.
Proof. vm_compute. repeat split; reflexivity. Qed.

(** C8, amended: when ELEVENLABS_API_KEY is set, [_tts_fn] never raises and
    the stream it returns never raises when it is read.  The stream yields
    the chunks of the synthesised audio when the synthesis of the text
    succeeded; when it failed, the chunks of an apology synthesised at
    reading time, or no chunk when that synthesis fails too; and no chunk
    when the text was one the stage skips and the preliminary synthesis of
    "I'm sorry, there was an issue." failed.  Without the key the stage
    raises [ConnectionError]. *)
Theorem agent_tts_never_raises_with_key :
  forall (E : services) (G : Helpers.globals) (text : string) (w : world),
    truthy (Helpers.ELEVENLABS_API_KEY G) = true ->
    exists (s : Agent.stream) (w1 : world),
      Agent._tts_fn E G text w = (Ok s, w1)
      /\ ((exists wp audio,
             Helpers.synthesize_speech E G text wp = (Ok audio, w1)
             /\ forall wi, s wi = (Ok (text_stream audio), wi))
          \/ (exists wp e message,
                Helpers.synthesize_speech E G text wp = (Raise e, w1)
                /\ message ∈ [Agent.error_message; Agent.fallback_message]
                /\ forall wi,
                     s wi = match Helpers.synthesize_speech E G message wi with
                            | (Ok audio, w2) => (Ok (chunks_of chunk_size audio), w2)
                            | (Raise _, w2) => (Ok [], w2)
                            end)
          \/ (exists e,
                Agent.skipped_text text = true
                /\ Helpers.synthesize_speech E G Agent.issue_message w = (Raise e, w1)
                /\ forall wi, s wi = (Ok [], wi))).
Proof.
  intros E G text w Hkey.
  unfold Agent._tts_fn. rewrite Hkey. unfold_M. red_A.
  destruct (Agent.skipped_text text) eqn:Hskip; red_A.
  - destruct (Helpers.synthesize_speech E G Agent.issue_message w)
      as [[audio0|e0] wp] eqn:Hpre; red_A.
    + primary_synthesis E G text wp.
    + eexists _, _. split; [reflexivity|]. right. right. by exists e0.
  - primary_synthesis E G text w.
Qed.

Lemma agent_tts_never_raises_with_key_witness :
  exists (s : Agent.stream) (w1 : world),
    Agent._tts_fn Demo.tts_down Demo.agent_globals "hello" Demo.fresh = (Ok s, w1)
    /\ ((exists wp audio,
           Helpers.synthesize_speech Demo.tts_down Demo.agent_globals "hello" wp
             = (Ok audio, w1)
           /\ forall wi, s wi = (Ok (text_stream audio), wi))
        \/ (exists wp e message,
              Helpers.synthesize_speech Demo.tts_down Demo.agent_globals "hello" wp
                = (Raise e, w1)
              /\ message ∈ [Agent.error_message; Agent.fallback_message]
              /\ forall wi,
                   s wi = match Helpers.synthesize_speech Demo.tts_down
                                  Demo.agent_globals message wi with
                          | (Ok audio, w2) => (Ok (chunks_of chunk_size audio), w2)
                          | (Raise _, w2) => (Ok [], w2)
                          end)
        \/ (exists e,
              Agent.skipped_text "hello" = true
              /\ Helpers.synthesize_speech Demo.tts_down Demo.agent_globals
                   Agent.issue_message Demo.fresh = (Raise e, w1)
              /\ forall wi, s wi = (Ok [], wi))).
Proof.
  apply (agent_tts_never_raises_with_key Demo.tts_down Demo.agent_globals
           "hello" Demo.fresh).
  reflexivity.
Defined.

(** * Further properties of the sources *)

(** ** Splitting strings *)

Section Splitting.
Variable c : ascii.

Lemma split_length s : length (Py.split c s) = S (Py.count c s).
Proof.
  induction s as [|a s IH]; simpl; [done|].
  destruct (decide (a = c)); simpl; [by rewrite IH|].
  destruct (Py.split c s); simpl in *; lia.
Qed.

(** Text without the separator is one piece. *)
Lemma split_without s : Py.count c s = 0 -> Py.split c s = [s].
Proof.
  induction s as [|a s IH]; simpl; [done|].
  destruct (decide (a = c)); simpl; [done|].
  intros Hs. by rewrite IH.
Qed.

(** The first piece of [u ++ sep ++ v] is [u] when [u] has no separator. *)
Lemma split_at_first u v :
  Py.count c u = 0 ->
  Py.split c (u +:+ String c v) = u :: Py.split c v.
Proof.
  induction u as [|a u IH]; simpl.
  - intros _. by rewrite decide_True.
  - destruct (decide (a = c)); simpl; [done|].
    intros Hu. change (String.append u (String c v)) with (u +:+ String c v).
    by rewrite IH.
Qed.

Lemma contains_char s :
  Py.contains (String c "") s = bool_decide (0 < Py.count c s).
Proof.
  induction s as [|a s IH]; simpl; [done|].
  rewrite IH.
  destruct (ascii_dec c a) as [->|Hne]; simpl.
  - rewrite decide_True by done. by destruct s.
  - rewrite decide_False by congruence. done.
Qed.

End Splitting.

Lemma count_app c u v : Py.count c (u +:+ v) = Py.count c u + Py.count c v.
Proof.
  induction u as [|a u IH]; simpl; [done|].
  change (String.append u v) with (u +:+ v). rewrite IH. lia.
Qed.

Lemma split_nonempty c v : exists h t, Py.split c v = h :: t.
Proof.
  pose proof (split_length c v) as Hlen.
  destruct (Py.split c v) as [|h t]; [done|eauto].
Qed.

(** A prefix without the separator stays in front of the first piece. *)
Lemma split_app_without c u v h t :
  Py.count c u = 0 ->
  Py.split c v = h :: t ->
  Py.split c (u +:+ v) = (u +:+ h) :: t.
Proof.
  intros Hu Hv. induction u as [|a u IH]; simpl in *.
  - exact Hv.
  - destruct (decide (a = c)); simpl in *; [done|].
    change (String.append u v) with (u +:+ v). by rewrite IH.
Qed.

(** ** The MIME type of a data URI (app.py, lines 123 and 318) *)

(** The MIME type handed to Deepgram is the text between the first colon
    and the first semicolon of the header, unchanged; a header without a
    colon gets "audio/wav". *)
Theorem mime_type_is_forwarded :
  forall scheme mime rest : string,
    Py.count ":" scheme = 0 ->
    Py.count ":" mime = 0 ->
    Py.count ";" mime = 0 ->
    App.mime_type_of (scheme +:+ String ":" (mime +:+ String ";" rest)) = mime
    /\ App.mime_type_of scheme = "audio/wav".
Proof.
  intros scheme mime rest Hscheme Hmime Hsemi. unfold App.mime_type_of. split.
  - change ":" with (String ":" "") at 1. rewrite contains_char, count_app.
    rewrite bool_decide_eq_true_2 by (simpl; lia).
    rewrite split_at_first by done.
    destruct (split_nonempty ":" rest) as (h & t & Hrest).
    rewrite (split_app_without ":" mime (String ";" rest) (String ";" h) t);
      [|done|by simpl; rewrite Hrest].
    by rewrite split_at_first.
  - change ":" with (String ":" "") at 1. rewrite contains_char, Hscheme. done.
Qed.

Lemma mime_type_is_forwarded_witness :
  App.mime_type_of ("data" +:+ String ":" ("audio/webm" +:+ String ";" "base64"))
    = "audio/webm"
  /\ App.mime_type_of "data" = "audio/wav".
Proof.
  apply (mime_type_is_forwarded "data" "audio/webm" "base64"); reflexivity.
Defined.

(** ** Requests the routes reject (app.py, lines 107-113, 181-183,
       250-252 and 301-307) *)

(** As [red_M], with the test of the body kept folded. *)
Ltac red_L :=
  cbn -[list_to_map App.latency_fields App.lacks Py.round2 Py.split
        Py.contains Py.strip chunks_of text_stream].

Lemma lacks_present key (d : dict) v :
  d !! key = Some v -> App.lacks key (Some d) = false.
Proof.
  intros Hv. unfold App.lacks.
  rewrite bool_decide_eq_false_2.
  - simpl. rewrite bool_decide_eq_true_2; [done|by rewrite Hv].
  - intros Hsize%map_size_empty_iff. by rewrite Hsize in Hv.
Qed.



(** A data URI that does not hold exactly one comma cannot be unpacked
    into header and payload: both audio routes answer 500 (not 400), call
    no service and log nothing. *)
Theorem malformed_data_uri_is_answered_500 :
  forall (E : services) (G : App.globals) (d : dict) (uri : string) (w : world),
    d !! "audioDataUri" = Some (JStr uri) ->
    Py.count "," uri <> 1 ->
    exists r1 w1 r2 w2,
      App.speech_to_text E G (Some d) w = (Ok r1, w1)
      /\ App.process_conversation E G (Some d) w = (Ok r2, w2)
      /\ status r1 = 500 /\ status r2 = 500
      /\ metrics_log w1 = metrics_log w /\ metrics_log w2 = metrics_log w
      /\ trace w1 = trace w /\ trace w2 = trace w.
Proof.
  intros E G d uri w Huri Hcommas.
  pose proof (lacks_present _ _ _ Huri) as Hlacks.
  pose proof (split_length "," uri) as Hlen.
  unfold App.speech_to_text, App.process_conversation, App.conversation_stt,
    App.time, App.subscript, App.split_data_uri.
  unfold_M. red_L. rewrite Hlacks, Huri. red_M.
  destruct (App.DEEPGRAM_AVAILABLE G); red_M; [|by eexists _, _, _, _].
  destruct (Py.split "," uri) as [|h [|b [|x rest]]]; simpl in Hlen; red_M;
    try (exfalso; lia); by eexists _, _, _, _.
Qed.

Lemma malformed_data_uri_is_answered_500_witness :
  exists r1 w1 r2 w2,
    App.speech_to_text Demo.all_up (Demo.app_globals Demo.all_up)
      Samples.two_commas_request Demo.fresh = (Ok r1, w1)
    /\ App.process_conversation Demo.all_up (Demo.app_globals Demo.all_up)
         Samples.two_commas_request Demo.fresh = (Ok r2, w2)
    /\ status r1 = 500 /\ status r2 = 500
    /\ metrics_log w1 = metrics_log Demo.fresh
    /\ metrics_log w2 = metrics_log Demo.fresh
    /\ trace w1 = trace Demo.fresh /\ trace w2 = trace Demo.fresh.
Proof.
  apply (malformed_data_uri_is_answered_500 Demo.all_up
           (Demo.app_globals Demo.all_up)
           (list_to_map [("audioDataUri", JStr "data:audio/wav;base64,AA,AA")])
           "data:audio/wav;base64,AA,AA" Demo.fresh).
  - reflexivity.
  - vm_compute. lia.
Defined.

(** ** What the stage routes log (app.py, lines 102-293) *)

Lemma latency_fields_type kind ts T S extra :
  (list_to_map (App.latency_fields kind ts T S ++ extra) : dict) !! "type"
  = Some (JStr kind).
Proof. unfold App.latency_fields. simpl. by simplify_map_eq. Qed.

Lemma latency_fields_type_nil kind ts T S :
  (list_to_map (App.latency_fields kind ts T S) : dict) !! "type"
  = Some (JStr kind).
Proof.
  rewrite <- (app_nil_r (App.latency_fields _ _ _ _)).
  apply latency_fields_type.
Qed.

Lemma latency_fields_measured E kind ts t0 t1 t2 t3 extra :
  t0 <= t1 -> t1 <= t2 -> t2 <= t3 ->
  measured_entry E
    (list_to_map
       (App.latency_fields kind ts
          (time_time E t3 - time_time E t0) (time_time E t2 - time_time E t1)
        ++ extra)).
Proof.
  intros H01 H12 H23. exists kind, t0, t1, t2, t3.
  split_and!; try done; unfold num_field, App.latency_fields; simpl;
    by simplify_map_eq.
Qed.

Lemma latency_fields_measured_nil E kind ts t0 t1 t2 t3 :
  t0 <= t1 -> t1 <= t2 -> t2 <= t3 ->
  measured_entry E
    (list_to_map
       (App.latency_fields kind ts
          (time_time E t3 - time_time E t0) (time_time E t2 - time_time E t1))).
Proof.
  intros. rewrite <- (app_nil_r (App.latency_fields _ _ _ _)).
  by apply latency_fields_measured.
Qed.

Lemma field_metrics_of_answer k v (entry : dict) :
  k <> "metrics" ->
  field (jsonify [(k, v); ("metrics", JObj entry)] 200) "metrics"
  = Some (JObj entry).
Proof. intros Hk. unfold field, jsonify. simpl. by simplify_map_eq. Qed.

Lemma error_response_keys message code :
  keys (App.error_response message code) = ["error"].
Proof. apply error_response_fields. Qed.

Ltac solve_measured :=
  lazymatch goal with
  | |- measured_entry _ (list_to_map (App.latency_fields _ _ _ _ ++ _)) =>
      eapply latency_fields_measured
  | |- measured_entry _ (list_to_map (App.latency_fields _ _ _ _)) =>
      eapply latency_fields_measured_nil
  end; lia.

Ltac solve_type :=
  lazymatch goal with
  | |- list_to_map (_ ++ _) !! _ = _ => apply latency_fields_type
  | |- list_to_map _ !! _ = _ => apply latency_fields_type_nil
  end.

(** The answer of a route that runs one stage, as a case of the lemma
    below. *)
Ltac finish_single_stage :=
  eexists _, _; split; [reflexivity|]; split; [reflexivity|];
  first
    [ left; split; [reflexivity|]; eexists;
      split_and!;
        [ reflexivity
        | by apply field_metrics_of_answer
        | solve_type
        | solve_measured
        | reflexivity ]
    | right;
      split_and!;
        [ first [left; reflexivity | right; reflexivity]
        | apply error_response_keys
        | reflexivity
        | first [ left; reflexivity | right; eexists; reflexivity ] ] ].

Lemma single_stage_run E G req v w :
  single_stage req = Some v ->
  exists r w',
    App.handle E G req w = (Ok r, w')
    /\ files w' = files w
    /\ ((status r = 200
         /\ exists entry,
              metrics_log w' = metrics_log w ++ [entry]
              /\ field r "metrics" = Some (JObj entry)
              /\ entry !! "type" = Some (JStr (stage_of v))
              /\ measured_entry E entry
              /\ trace w' = trace w ++ [Call v true])
        \/ ((status r = 400 \/ status r = 500)
            /\ keys r = ["error"]
            /\ metrics_log w' = metrics_log w
            /\ (trace w' = trace w
                \/ exists ok, trace w' = trace w ++ [Call v ok]))).
Proof.
  intros Hv. destruct req; simpl in Hv; simplify_eq; unfold App.handle, stage_of.
  - unfold App.speech_to_text, App.time, App.datetime_now_isoformat,
      App.subscript, App.split_data_uri, App.deepgram_transcribe.
    unfold_M. red_M.
    repeat case_step; finish_single_stage.
  - unfold App.generate_response, App.time, App.datetime_now_isoformat,
      App.subscript.
    unfold_M. red_M.
    repeat case_step; finish_single_stage.
  - unfold App.text_to_speech, App.time, App.datetime_now_isoformat,
      App.subscript.
    unfold_M. red_M.
    repeat case_step; finish_single_stage.
Qed.

(** A route that runs one stage answers 200, 400 or 500.  It appends one
    entry exactly when it answers 200, after one successful vendor call;
    that entry is the [metrics] object of the answer and has the stage's
    type.  Otherwise the answer has the single field [error], nothing is
    appended and at most one vendor call was made. *)
Theorem stage_route_logs_the_metrics_it_returns :
  forall (E : services) (G : App.globals) (req : App.request) (v : vendor)
         (w : world),
    single_stage req = Some v ->
    exists r w',
      App.handle E G req w = (Ok r, w')
      /\ ((status r = 200
           /\ exists entry,
                metrics_log w' = metrics_log w ++ [entry]
                /\ field r "metrics" = Some (JObj entry)
                /\ entry !! "type" = Some (JStr (stage_of v))
                /\ trace w' = trace w ++ [Call v true])
          \/ ((status r = 400 \/ status r = 500)
              /\ keys r = ["error"]
              /\ metrics_log w' = metrics_log w
              /\ (trace w' = trace w
                  \/ exists ok, trace w' = trace w ++ [Call v ok]))).
Proof.
  intros E G req v w Hv.
  destruct (single_stage_run E G req v w Hv)
    as (r & w' & Hrun & _ & [(Hs & entry & ? & ? & ? & _ & ?)|Hfail]).
  - exists r, w'. split; [done|]. left. split; [done|]. by exists entry.
  - exists r, w'. split; [done|]. by right.
Qed.

Lemma stage_route_logs_the_metrics_it_returns_witness :
  exists r w',
    App.handle Demo.all_up (Demo.app_globals Demo.all_up)
      (App.PostTts Samples.tts_request) Demo.fresh = (Ok r, w')
    /\ ((status r = 200
         /\ exists entry,
              metrics_log w' = metrics_log Demo.fresh ++ [entry]
              /\ field r "metrics" = Some (JObj entry)
              /\ entry !! "type" = Some (JStr (stage_of ElevenLabs))
              /\ trace w' = trace Demo.fresh ++ [Call ElevenLabs true])
        \/ ((status r = 400 \/ status r = 500)
            /\ keys r = ["error"]
            /\ metrics_log w' = metrics_log Demo.fresh
            /\ (trace w' = trace Demo.fresh
                \/ exists ok, trace w' = trace Demo.fresh ++ [Call ElevenLabs ok]))).
Proof.
  apply (stage_route_logs_the_metrics_it_returns Demo.all_up
           (Demo.app_globals Demo.all_up) (App.PostTts Samples.tts_request)
           ElevenLabs Demo.fresh).
  reflexivity.
Defined.

(** ** Latencies under a monotone clock (app.py, lines 152-163, 216-232,
       271-283, 349-357, 396-408 and 430-440) *)

#[local] Instance round_half_even_proper : Proper (Qeq ==> eq) Py.round_half_even.
Proof.
  intros x y Hxy. unfold Py.round_half_even.
  rewrite (Qfloor_comp x y Hxy).
  assert ((x - inject_Z (Qfloor y) ?= 1 # 2) = (y - inject_Z (Qfloor y) ?= 1 # 2))%Q
    as -> by (by rewrite Hxy).
  done.
Qed.

Lemma round_half_even_mono (x y : Q) :
  (x <= y)%Q -> (Py.round_half_even x <= Py.round_half_even y)%Z.
Proof.
  intros Hxy.
  pose proof (round_half_even_close x) as Hx.
  pose proof (round_half_even_close y) as Hy.
  apply Qabs_Qle_condition in Hx, Hy.
  destruct (Z_le_gt_dec (Py.round_half_even x) (Py.round_half_even y))
    as [Hle|Hgt]; [done|exfalso].
  assert (Py.round_half_even y + 1 <= Py.round_half_even x)%Z as Hstep by lia.
  rewrite Zle_Qle, inject_Z_plus in Hstep.
  change (inject_Z 1) with 1%Q in Hstep.
  assert (x == y)%Q as Heq by (apply Qle_antisym; lra).
  rewrite (round_half_even_proper x y Heq) in Hgt. lia.
Qed.

Lemma round2_mono (x y : Q) : (x <= y)%Q -> (Py.round2 x <= Py.round2 y)%Q.
Proof.
  intros Hxy. unfold Py.round2, Qle. simpl.
  apply Z.mul_le_mono_nonneg_r; [done|].
  apply round_half_even_mono. lra.
Qed.

Lemma round2_nonneg (x : Q) : (0 <= x)%Q -> (0 <= Py.round2 x)%Q.
Proof.
  intros Hx. unfold Py.round2, Qle. simpl.
  assert (Py.round_half_even 0 <= Py.round_half_even (x * 100))%Z as Hle
    by (apply round_half_even_mono; lra).
  change (Py.round_half_even 0) with 0%Z in Hle. lia.
Qed.

Lemma measured_entry_plausible E entry :
  monotone_clock E -> measured_entry E entry -> plausible_entry entry.
Proof.
  intros Hmono (kind & t0 & t1 & t2 & t3 & H01 & H12 & H23 & _ & Ht & Hs & Ho).
  pose proof (Hmono t0 t1 H01). pose proof (Hmono t1 t2 H12).
  pose proof (Hmono t2 t3 H23).
  eexists _, _, _. split_and!; [exact Ht|exact Hs|exact Ho|..].
  - apply round2_nonneg. lra.
  - apply round2_mono. lra.
  - apply round2_nonneg. lra.
Qed.

Ltac finish_conversation :=
  eexists _, _, _; split; [reflexivity|]; red_M; rewrite <- ?app_assoc;
  split; [first [reflexivity | symmetry; apply app_nil_r]|];
  cbn [app];
  repeat (apply Forall_cons_2;
          [first [ left; solve_measured
                 | right; unfold conversation_entry; by simplify_map_eq ]|]);
  apply Forall_nil_2.

Lemma process_conversation_measured E G data w :
  exists r w' new,
    App.process_conversation E G data w = (Ok r, w')
    /\ metrics_log w' = metrics_log w ++ new
    /\ Forall (fun entry => measured_entry E entry \/ conversation_entry entry) new.
Proof.
  unfold App.process_conversation, App.conversation_stt, App.conversation_llm,
    App.conversation_tts, App.time, App.datetime_now_isoformat,
    App.subscript, App.split_data_uri, App.deepgram_transcribe.
  unfold_M. red_M.
  repeat case_step; finish_conversation.
Qed.

Lemma handle_measured E G req w :
  exists r w' new,
    App.handle E G req w = (Ok r, w')
    /\ metrics_log w' = metrics_log w ++ new
    /\ Forall (fun entry => measured_entry E entry \/ conversation_entry entry) new.
Proof.
  destruct (single_stage req) as [v|] eqn:Hstage.
  - destruct (single_stage_run E G req v w Hstage)
      as (r & w' & Hrun & _ & [(_ & entry & Hlog & _ & _ & Hm & _)|(_ & _ & Hlog & _)]).
    + exists r, w', [entry]. split_and!; [done..|].
      apply Forall_cons_2; [by left|apply Forall_nil_2].
    + exists r, w', []. rewrite app_nil_r. split_and!; [done..|apply Forall_nil_2].
  - destruct req; try discriminate Hstage; unfold App.handle.
    + exists (Response 200 (JArr (JObj <$> metrics_log w))), w, [].
      rewrite app_nil_r. split_and!; [done..|apply Forall_nil_2].
    + destruct (export_metrics_run E w) as (r & w' & Hrun & Hlog & _).
      exists r, w', []. rewrite app_nil_r. split_and!; [done..|apply Forall_nil_2].
    + apply process_conversation_measured.
Qed.

Lemma serve_measured E G reqs w :
  exists new,
    metrics_log (App.serve E G reqs w) = metrics_log w ++ new
    /\ Forall (fun entry => measured_entry E entry \/ conversation_entry entry) new.
Proof.
  revert w. induction reqs as [|req reqs IH]; intros w; cbn [App.serve].
  - exists []. rewrite app_nil_r. split; [done|apply Forall_nil_2].
  - destruct (handle_measured E G req w) as (r & w' & new & Hrun & Hlog & Hnew).
    rewrite Hrun. cbn [snd].
    destruct (IH w') as (new' & Hlog' & Hnew').
    exists (new ++ new'). rewrite Hlog', Hlog, app_assoc.
    split; [done|]. by apply Forall_app.
Qed.

(** When the clock never goes back, every stage entry logged by any
    sequence of requests has a service latency between 0 and the total
    latency, and a processing overhead that is not negative: the service
    interval is measured inside the total one. *)
Theorem monotone_clock_gives_plausible_latencies :
  forall (E : services) (G : App.globals) (reqs : list App.request)
         (ticks : nat) (calls : list call) (written : gmap string (list dict)),
    monotone_clock E ->
    Forall (fun entry => plausible_entry entry \/ conversation_entry entry)
      (metrics_log (App.serve E G reqs (World [] ticks calls written))).
Proof.
  intros E G reqs ticks calls written Hmono.
  destruct (serve_measured E G reqs (World [] ticks calls written))
    as (new & -> & Hnew).
  cbn [metrics_log app].
  eapply Forall_impl; [exact Hnew|].
  intros entry [Hm|Hc]; [left|by right].
  by eapply measured_entry_plausible.
Qed.

Lemma monotone_clock_gives_plausible_latencies_witness :
  Forall (fun entry => plausible_entry entry \/ conversation_entry entry)
    (metrics_log
       (App.serve Samples.steady (Demo.app_globals Samples.steady)
          [App.PostStt Demo.audio_request; App.PostConversation Demo.audio_request]
          (World [] 0 [] ∅))).
Proof.
  apply (monotone_clock_gives_plausible_latencies Samples.steady).
  intros n m Hnm. unfold Samples.steady, time_time, Samples.steady_clock, Qle.
  simpl. lia.
Defined.

(** The log only grows: whatever requests are served, the entries already
    logged stay where they are, unchanged. *)
Theorem metrics_log_is_append_only :
  forall (E : services) (G : App.globals) (reqs : list App.request) (w : world),
    metrics_log w `prefix_of` metrics_log (App.serve E G reqs w).
Proof.
  intros E G reqs w.
  destruct (serve_appends_recorded E G reqs w) as (new & -> & _).
  by apply prefix_app_r.
Qed.

(** ** A completed turn (app.py, lines 309-468) *)

Lemma length_snoc {A} (l : list A) (x : A) : length (l ++ [x]) = S (length l).
Proof. rewrite length_app. simpl. lia. Qed.

Lemma conversation_answer_fields (a b c d : json) :
  let r := jsonify [("transcription", a); ("response", b); ("audio", c);
                    ("metrics", d)] 200 in
  status r = 200
  /\ field r "transcription" = Some a
  /\ field r "response" = Some b
  /\ field r "audio" = Some c
  /\ field r "metrics" = Some d.
Proof. unfold field, jsonify. simpl. split_and!; by simplify_map_eq. Qed.

Lemma full_metrics_fields (ts a b c d e f g h : json) :
  let full : dict :=
    list_to_map
      [("timestamp", ts); ("type", JStr "conversation"); ("total_latency", a);
       ("eou_delay", b); ("ttft", c); ("ttfb", d); ("stt_latency", e);
       ("llm_latency", f); ("tts_latency", g); ("text_length", h)] in
  full !! "stt_latency" = Some e
  /\ full !! "llm_latency" = Some f
  /\ full !! "tts_latency" = Some g
  /\ full !! "text_length" = Some h.
Proof. simpl. split_and!; by simplify_map_eq. Qed.

Lemma latency_fields_total kind ts T S extra :
  (list_to_map (App.latency_fields kind ts T S ++ extra) : dict) !! "total_latency"
  = Some (JNum (Py.round2 (T * 1000))).
Proof. unfold App.latency_fields. simpl. by simplify_map_eq. Qed.

Lemma total_latency_of_fields kind ts T S extra :
  App.total_latency_of (list_to_map (App.latency_fields kind ts T S ++ extra))
  = JNum (Py.round2 (T * 1000)).
Proof. unfold App.total_latency_of. by rewrite latency_fields_total. Qed.

Lemma total_latency_of_fields_nil kind ts T S :
  App.total_latency_of (list_to_map (App.latency_fields kind ts T S))
  = JNum (Py.round2 (T * 1000)).
Proof.
  rewrite <- (app_nil_r (App.latency_fields _ _ _ _)).
  apply total_latency_of_fields.
Qed.

Lemma latency_fields_text_length kind ts T S v :
  (list_to_map (App.latency_fields kind ts T S ++ [("text_length", v)]) : dict)
    !! "text_length" = Some v.
Proof. unfold App.latency_fields. simpl. by simplify_map_eq. Qed.

(** The run of a turn, with the stages unfolded. *)
Ltac run_conversation :=
  unfold status_of, answer, App.process_conversation, App.conversation_stt,
    App.conversation_llm, App.conversation_tts, App.time,
    App.datetime_now_isoformat, App.subscript, App.split_data_uri,
    App.deepgram_transcribe;
  unfold_M; red_M;
  repeat case_step; try discriminate.

(** An answer 200 of [POST /api/conversation] carries the outputs of the
    three services chained in order: the transcript Deepgram returned for
    the decoded payload with the MIME type of the header, the reply Groq
    returned for the prompt built from that transcript, and the base64 of
    the audio ElevenLabs returned for that reply with the default voice. *)
Theorem completed_turn_chains_the_three_services :
  forall (E : services) (G : App.globals) (data : option dict) (w : world),
    status_of (App.process_conversation E G data w) = Some 200 ->
    exists (uri header payload : string) (audio : bytes) (transcription : string)
           (reply : groq_response) (synthesized : bytes) (r : response),
      data ≫= (.!! "audioDataUri") = Some (JStr uri)
      /\ Py.split "," uri = [header; payload]
      /\ b64decode E payload = Ok audio
      /\ (if App.MODERN_DEEPGRAM G then transcribe_file E else sync_prerecorded E)
           (length (trace w)) audio (App.mime_type_of header) = Ok transcription
      /\ chat_completions_create E (S (length (trace w))) App.system_message
           (App.prompt_of transcription) = Ok reply
      /\ generate E (S (S (length (trace w)))) (JStr (content reply))
           (JStr (App.ELEVENLABS_VOICE_ID G)) App.model_id = Ok synthesized
      /\ answer (App.process_conversation E G data w) = Some r
      /\ field r "transcription" = Some (JStr transcription)
      /\ field r "response" = Some (JStr (content reply))
      /\ field r "audio" = Some (JStr (b64encode E synthesized)).
Proof.
  intros E G data w. run_conversation.
  all: intros _; rewrite ?length_snoc in *; subst.
  all: eexists _, _, _, _, _, _, _, _.
  all: split_and!; try eassumption; try reflexivity.
  all: apply conversation_answer_fields.
Qed.

Lemma completed_turn_chains_the_three_services_witness :
  exists (uri header payload : string) (audio : bytes) (transcription : string)
         (reply : groq_response) (synthesized : bytes) (r : response),
    Demo.audio_request ≫= (.!! "audioDataUri") = Some (JStr uri)
    /\ Py.split "," uri = [header; payload]
    /\ b64decode Demo.all_up payload = Ok audio
    /\ (if App.MODERN_DEEPGRAM (Demo.app_globals Demo.all_up)
        then transcribe_file Demo.all_up else sync_prerecorded Demo.all_up)
         (length (trace Demo.fresh)) audio (App.mime_type_of header)
       = Ok transcription
    /\ chat_completions_create Demo.all_up (S (length (trace Demo.fresh)))
         App.system_message (App.prompt_of transcription) = Ok reply
    /\ generate Demo.all_up (S (S (length (trace Demo.fresh))))
         (JStr (content reply))
         (JStr (App.ELEVENLABS_VOICE_ID (Demo.app_globals Demo.all_up)))
         App.model_id = Ok synthesized
    /\ answer (App.process_conversation Demo.all_up
                 (Demo.app_globals Demo.all_up) Demo.audio_request Demo.fresh)
       = Some r
    /\ field r "transcription" = Some (JStr transcription)
    /\ field r "response" = Some (JStr (content reply))
    /\ field r "audio" = Some (JStr (b64encode Demo.all_up synthesized)).
Proof.
  apply (completed_turn_chains_the_three_services Demo.all_up
           (Demo.app_globals Demo.all_up) Demo.audio_request Demo.fresh).
  vm_compute. reflexivity.
Defined.

(** In a completed turn the combined entry is the [metrics] object of the
    answer, and it repeats what the three stage entries logged just before
    it say: their total latencies and the length of the reply. *)
Theorem combined_entry_repeats_stage_entries :
  forall (E : services) (G : App.globals) (data : option dict) (w : world),
    status_of (App.process_conversation E G data w) = Some 200 ->
    exists (r : response) (w' : world) (stt llm tts full : dict),
      App.process_conversation E G data w = (Ok r, w')
      /\ metrics_log w' = metrics_log w ++ [stt; llm; tts; full]
      /\ field r "metrics" = Some (JObj full)
      /\ full !! "stt_latency" = stt !! "total_latency"
      /\ full !! "llm_latency" = llm !! "total_latency"
      /\ full !! "tts_latency" = tts !! "total_latency"
      /\ full !! "text_length" = tts !! "text_length".
Proof.
  intros E G data w. run_conversation.
  all: intros _; eexists _, _, _, _, _, _.
  all: split; [reflexivity|].
  all: split; [cbn [metrics_log]; rewrite <- !app_assoc; reflexivity|].
  all: split; [apply conversation_answer_fields|].
  all: rewrite !latency_fields_total, latency_fields_text_length.
  all: rewrite <- (app_nil_r (App.latency_fields "stt" _ _ _)) at 2.
  all: rewrite latency_fields_total.
  all: rewrite ?total_latency_of_fields, ?total_latency_of_fields_nil.
  all: apply full_metrics_fields.
Qed.

Lemma combined_entry_repeats_stage_entries_witness :
  exists (r : response) (w' : world) (stt llm tts full : dict),
    App.process_conversation Demo.all_up (Demo.app_globals Demo.all_up)
      Demo.audio_request Demo.fresh = (Ok r, w')
    /\ metrics_log w' = metrics_log Demo.fresh ++ [stt; llm; tts; full]
    /\ field r "metrics" = Some (JObj full)
    /\ full !! "stt_latency" = stt !! "total_latency"
    /\ full !! "llm_latency" = llm !! "total_latency"
    /\ full !! "tts_latency" = tts !! "total_latency"
    /\ full !! "text_length" = tts !! "text_length".
Proof.
  apply (combined_entry_repeats_stage_entries Demo.all_up
           (Demo.app_globals Demo.all_up) Demo.audio_request Demo.fresh).
  vm_compute. reflexivity.
Defined.

(** ** [POST /api/tts] (app.py, lines 244-293) *)

Ltac run_text_to_speech Htext :=
  unfold status_of, answer, App.text_to_speech, App.time,
    App.datetime_now_isoformat, App.subscript;
  rewrite (lacks_present _ _ _ Htext);
  unfold_M; red_M; rewrite Htext; red_M.

(** The voice is the [voiceId] of the request when it has one, the
    configured default otherwise; an answer 200 carries the base64 of what
    ElevenLabs returned for the text with that voice, and the entry logged
    records the length of the text. *)
Theorem tts_route_uses_requested_voice :
  forall (E : services) (G : App.globals) (d : dict) (text : json) (w : world),
    d !! "text" = Some text ->
    status_of (App.text_to_speech E G (Some d) w) = Some 200 ->
    exists (audio : bytes) (n : nat) (r : response) (w' : world) (entry : dict),
      generate E (length (trace w)) text
        (default (JStr (App.ELEVENLABS_VOICE_ID G)) (d !! "voiceId"))
        App.model_id = Ok audio
      /\ py_len text = Ok n
      /\ App.text_to_speech E G (Some d) w = (Ok r, w')
      /\ field r "audio" = Some (JStr (b64encode E audio))
      /\ metrics_log w' = metrics_log w ++ [entry]
      /\ entry !! "text_length" = Some (JInt (Z.of_nat n)).
Proof.
  intros E G d text w Htext. run_text_to_speech Htext.
  destruct (generate _ _ _ _ _) as [audio|e] eqn:Hgen; red_M; [|done].
  destruct (py_len text) as [n|e] eqn:Hlen; red_M; [|done].
  intros _. eexists audio, n, _, _, _.
  split_and!; reflexivity.
Qed.

Lemma tts_route_uses_requested_voice_witness :
  exists (audio : bytes) (n : nat) (r : response) (w' : world) (entry : dict),
    generate Demo.all_up (length (trace Demo.fresh)) (JStr "Hi there.")
      (default (JStr (App.ELEVENLABS_VOICE_ID (Demo.app_globals Demo.all_up)))
         ((list_to_map [("text", JStr "Hi there."); ("voiceId", JStr "custom")]
           : dict) !! "voiceId"))
      App.model_id = Ok audio
    /\ py_len (JStr "Hi there.") = Ok n
    /\ App.text_to_speech Demo.all_up (Demo.app_globals Demo.all_up)
         (Some (list_to_map [("text", JStr "Hi there."); ("voiceId", JStr "custom")]))
         Demo.fresh = (Ok r, w')
    /\ field r "audio" = Some (JStr (b64encode Demo.all_up audio))
    /\ metrics_log w' = metrics_log Demo.fresh ++ [entry]
    /\ entry !! "text_length" = Some (JInt (Z.of_nat n)).
Proof.
  apply (tts_route_uses_requested_voice Demo.all_up (Demo.app_globals Demo.all_up)
           (list_to_map [("text", JStr "Hi there."); ("voiceId", JStr "custom")])
           (JStr "Hi there.") Demo.fresh).
  - reflexivity.
  - vm_compute. reflexivity.
Defined.

(** A text that has no length (a number, a boolean, null) is answered 500
    and logs nothing, even when the synthesis call made for it succeeded:
    the length is taken after the call, while the entry is built. *)
Theorem tts_route_rejects_text_without_length :
  forall (E : services) (G : App.globals) (d : dict) (text : json) (e : exn)
         (w : world),
    d !! "text" = Some text ->
    py_len text = Raise e ->
    exists (message : string) (w' : world) (ok : bool),
      App.text_to_speech E G (Some d) w
        = (Ok (App.error_response message 500), w')
      /\ metrics_log w' = metrics_log w
      /\ trace w' = trace w ++ [Call ElevenLabs ok].
Proof.
  intros E G d text e w Htext Hlen. run_text_to_speech Htext.
  destruct (generate _ _ _ _ _) as [audio|e'] eqn:Hgen; red_M.
  - rewrite Hlen. red_M. by eexists _, _, _.
  - by eexists _, _, _.
Qed.

Lemma tts_route_rejects_text_without_length_witness :
  exists (message : string) (w' : world) (ok : bool),
    App.text_to_speech Demo.all_up (Demo.app_globals Demo.all_up)
      (Some (list_to_map [("text", JInt 5)])) Demo.fresh
      = (Ok (App.error_response message 500), w')
    /\ metrics_log w' = metrics_log Demo.fresh
    /\ trace w' = trace Demo.fresh ++ [Call ElevenLabs ok].
Proof.
  apply (tts_route_rejects_text_without_length Demo.all_up
           (Demo.app_globals Demo.all_up) (list_to_map [("text", JInt 5)])
           (JInt 5) (Exn TypeError "object has no len()") Demo.fresh);
    reflexivity.
Defined.

(** ** Files written by the export (app.py, lines 80-100) *)

(** An export changes neither the log nor the vendor-call trace, and every
    file with another name than the one it writes keeps its rows. *)
Theorem export_keeps_log_and_other_files :
  forall (E : services) (w : world),
    exists r w',
      App.export_metrics E w = (Ok r, w')
      /\ metrics_log w' = metrics_log w
      /\ trace w' = trace w
      /\ forall name : string,
           name <> "metrics_" +:+ now_strftime E (clock w) +:+ ".xlsx" ->
           files w' !! name = files w !! name.
Proof.
  intros E w. unfold App.export_metrics, App.save_metrics_to_excel.
  unfold_M. red_M.
  destruct (metrics_log w) eqn:Hlog; red_M.
  - eexists _, _. split_and!; try reflexivity; done.
  - eexists _, _. split_and!; try reflexivity; [done|].
    intros name Hname. cbn [files]. by rewrite lookup_insert_ne.
Qed.

(** ** Sizes of the streamed chunks (livekit_agent.py, lines 163-175) *)

Section ChunkSizes.
Variables (c stop : nat).
Hypothesis c_positive : 0 < c.

Lemma range_from_lookup fuel i k j :
  Py.range_from fuel i stop c !! k = Some j ->
  j < stop
  /\ (is_Some (Py.range_from fuel i stop c !! S k) -> j + c < stop).
Proof.
  revert i k. induction fuel as [|fuel IH]; intros i k; simpl; [done|].
  destruct (decide (i < stop)) as [Hlt|Hge]; [|done].
  destruct k as [|k]; simpl.
  - intros [= <-]. split; [done|].
    destruct fuel as [|fuel']; simpl; [by intros [? ?]|].
    destruct (decide (i + c < stop)); [done|by intros [? ?]].
  - apply IH.
Qed.
End ChunkSizes.

Lemma chunks_of_lookup c audio k chunk :
  0 < c ->
  chunks_of c audio !! k = Some chunk ->
  0 < length chunk <= c
  /\ (S k < length (chunks_of c audio) -> length chunk = c).
Proof.
  intros Hc. unfold chunks_of, Py.range.
  rewrite list_lookup_fmap, length_fmap.
  destruct (Py.range_from _ _ _ _ !! k) as [j|] eqn:Hj; [|done].
  intros [= <-].
  destruct (range_from_lookup c (length audio) _ _ _ _ Hj) as [Hlt Hnext].
  rewrite slice_step, length_take, length_drop.
  split; [lia|].
  intros Hk. apply lookup_lt_is_Some_2 in Hk. apply Hnext in Hk. lia.
Qed.

(** No chunk of the stream is empty or longer than 1024 bytes, and every
    chunk but the last holds exactly 1024 bytes. *)
Theorem text_stream_chunk_sizes :
  forall (audio_binary : bytes) (k : nat) (chunk : bytes),
    text_stream audio_binary !! k = Some chunk ->
    0 < length chunk <= chunk_size
    /\ (S k < length (text_stream audio_binary) -> length chunk = chunk_size).
Proof.
  intros audio k chunk. apply chunks_of_lookup. unfold chunk_size. lia.
Qed.

Lemma text_stream_chunk_sizes_witness :
  0 < length Demo.zeros <= chunk_size
  /\ (1 < length (text_stream Demo.zeros) -> length Demo.zeros = chunk_size).
Proof.
  apply (text_stream_chunk_sizes Demo.zeros 0 Demo.zeros).
  vm_compute. reflexivity.
Defined.

(** ** The adapters (agent_helpers.py) *)

(** Lines 24-53: after start-up a client exists exactly when its key is
    set and its constructor did not raise. *)
Theorem client_exists_iff_key_and_constructor :
  forall (new_deepgram new_groq new_elevenlabs : option string -> result unit)
         (deepgram_key elevenlabs_key voice_id groq_key : option string),
    let G := Helpers.init new_deepgram new_groq new_elevenlabs
               deepgram_key elevenlabs_key voice_id groq_key in
    (is_Some (Helpers.deepgram_client G)
       <-> truthy deepgram_key = true /\ is_ok (new_deepgram deepgram_key) = true)
    /\ (is_Some (Helpers.groq_client G)
          <-> truthy groq_key = true /\ is_ok (new_groq groq_key) = true)
    /\ (is_Some (Helpers.elevenlabs_client G)
          <-> truthy elevenlabs_key = true
              /\ is_ok (new_elevenlabs elevenlabs_key) = true)
    /\ Helpers.DEEPGRAM_API_KEY G = deepgram_key
    /\ Helpers.GROQ_API_KEY G = groq_key
    /\ Helpers.ELEVENLABS_API_KEY G = elevenlabs_key.
Proof.
  intros nd ng ne dk ek vk gk G.
  assert (forall ctor key,
            is_Some (Helpers.build_client ctor key)
            <-> truthy key = true /\ is_ok (ctor key) = true) as Hbuild.
  { intros ctor key. unfold Helpers.build_client.
    destruct (truthy key); [destruct (ctor key)|]; simpl;
      split; (by intros [? ?] || by intros [? ?] || eauto). }
  subst G. unfold Helpers.init. simpl. split_and!; try done; apply Hbuild.
Qed.

(** [synthesize_speech] makes at most two vendor calls and changes nothing
    else.  It returns the audio of [text_to_speech.convert]; only when that
    call raised an [AttributeError] whose message names "text_to_speech" or
    "convert" does it call [generate] once, returning its audio or raising
    [ConnectionError] with the message of that second failure.  Every other
    exception of [convert] is raised unchanged, and without a client
    [ConnectionError] is raised before any call. *)
Theorem synthesize_speech_outcomes :
  forall (E : services) (G : Helpers.globals) (text : string) (w : world),
    let first :=
      text_to_speech_convert E (length (trace w)) (Helpers.ELEVENLABS_VOICE_ID G) text in
    let second :=
      generate E (S (length (trace w))) (JStr text)
        (JStr (Helpers.ELEVENLABS_VOICE_ID G)) App.model_id in
    let retried (e : exn) :=
      exn_cls e = AttributeError
      /\ (Py.contains "text_to_speech" (exn_msg e) = true
          \/ Py.contains "convert" (exn_msg e) = true) in
    exists r calls,
      Helpers.synthesize_speech E G text w
        = (r, World (metrics_log w) (clock w) (trace w ++ calls) (files w))
      /\ ((Helpers.elevenlabs_client G = None
           /\ r = Raise (Exn ConnectionError "ElevenLabs client not configured.")
           /\ calls = [])
          \/ (exists audio,
                first = Ok audio /\ r = Ok audio
                /\ calls = [Call ElevenLabs true])
          \/ (exists e audio,
                first = Raise e /\ retried e /\ second = Ok audio
                /\ r = Ok audio
                /\ calls = [Call ElevenLabs false; Call ElevenLabs true])
          \/ (exists e e2,
                first = Raise e /\ retried e /\ second = Raise e2
                /\ r = Raise (Exn ConnectionError
                                ("ElevenLabs TTS failed after fallback: "
                                 +:+ exn_msg e2))
                /\ calls = [Call ElevenLabs false; Call ElevenLabs false])
          \/ (exists e,
                first = Raise e /\ ~ retried e /\ r = Raise e
                /\ calls = [Call ElevenLabs false])).
Proof.
  intros E G text w first second retried. subst first second retried.
  unfold Helpers.synthesize_speech, str_exn. unfold_M.
  destruct (Helpers.elevenlabs_client G) as [client|]; cbn -[Py.contains].
  2:{ exists (Raise (Exn ConnectionError "ElevenLabs client not configured.")), [].
      rewrite app_nil_r. split; [by destruct w|]. by left. }
  destruct (text_to_speech_convert E _ _ _) as [audio|e] eqn:Hfirst;
    cbn -[Py.contains].
  { eexists _, _. split; [reflexivity|]. right. left. by exists audio. }
  destruct (decide (exn_cls e = AttributeError)) as [Hcls|Hcls]; cbn -[Py.contains].
  - destruct (Py.contains "text_to_speech" (exn_msg e)
              || Py.contains "convert" (exn_msg e)) eqn:Hnames; cbn -[Py.contains].
    + apply orb_true_iff in Hnames.
      rewrite length_snoc.
      destruct (generate E _ _ _ _) as [audio|e2] eqn:Hsecond; cbn -[Py.contains];
        rewrite <- app_assoc; eexists _, _; (split; [reflexivity|]).
      * right. right. left. by exists e, audio.
      * right. right. right. left. by exists e, e2.
    + apply orb_false_iff in Hnames as [Hn1 Hn2].
      eexists _, _. split; [reflexivity|]. right. right. right. right.
      exists e. split_and!; try done. intros [_ [?|?]]; congruence.
  - eexists _, _. split; [reflexivity|]. right. right. right. right.
    exists e. split_and!; try done. by intros [? _].
Qed.

(** ** The realtime agent (livekit_agent.py) *)

Lemma buffer_holds_frames {A} (buffer frames : list A) :
  foldl (fun buffer frame => buffer ++ [frame]) buffer frames = buffer ++ frames.
Proof.
  revert buffer. induction frames as [|frame frames IH]; intros buffer; simpl.
  - by rewrite app_nil_r.
  - by rewrite IH, <- app_assoc.
Qed.

(** With its key set and its client built, [_stt_fn] makes exactly one
    Deepgram call: the wave file of all the frames of the stream, in their
    order, sent as "audio/wav".  It returns the transcript of that call, the
    "couldn't connect" text when the call raised [ConnectionError], and the
    "trouble understanding" text for any other exception. *)
Theorem agent_stt_transcribes_whole_stream :
  forall (E : services) (G : Helpers.globals) (audio_stream : list bytes)
         (w : world),
    truthy (Helpers.DEEPGRAM_API_KEY G) = true ->
    is_Some (Helpers.deepgram_client G) ->
    let attempt :=
      transcribe_file E (length (trace w)) (to_wave E audio_stream) "audio/wav" in
    Agent._stt_fn E G audio_stream w
    = (Ok match attempt with
          | Ok transcript => transcript
          | Raise e =>
              if decide (exn_cls e = ConnectionError)
              then Agent.stt_no_connection else Agent.stt_trouble
          end,
       World (metrics_log w) (clock w)
         (trace w ++ [Call Deepgram (is_ok attempt)]) (files w)).
Proof.
  intros E G audio_stream w Hkey [client Hclient] attempt. subst attempt.
  unfold Agent._stt_fn, Helpers.transcribe_audio_data, Helpers.reraise.
  rewrite Hkey, Hclient, buffer_holds_frames. unfold_M. red_A.
  destruct (transcribe_file E _ _ _) as [transcript|e]; red_A; [done|].
  by destruct (decide (exn_cls e = ConnectionError)).
Qed.

Lemma agent_stt_transcribes_whole_stream_witness :
  Agent._stt_fn Demo.all_up Samples.configured [Demo.zeros; Demo.zeros] Demo.fresh
  = (Ok "hello", World [] 0 [Call Deepgram true] ∅).
Proof.
  apply (agent_stt_transcribes_whole_stream Demo.all_up Samples.configured
           [Demo.zeros; Demo.zeros] Demo.fresh).
  - reflexivity.
  - by eexists.
Defined.

Lemma llm_fn_on_recognised E G t w :
  truthy (Helpers.GROQ_API_KEY G) = true ->
  t = "" \/ Py.strip t = Agent.stt_trouble ->
  Agent._llm_fn E G t w = (Ok Agent.llm_clarification, w).
Proof.
  intros Hkey Ht. unfold Agent._llm_fn. rewrite Hkey. simpl negb. cbv iota.
  destruct Ht as [Ht|Ht].
  - by rewrite (bool_decide_eq_true_2 _ Ht).
  - rewrite (bool_decide_eq_true_2 _ Ht). by rewrite orb_true_r.
Qed.

Lemma llm_fn_on_unrecognised E G t w :
  truthy (Helpers.GROQ_API_KEY G) = true ->
  is_Some (Helpers.groq_client G) ->
  t <> "" -> Py.strip t <> Agent.stt_trouble ->
  trace (Agent._llm_fn E G t w).2
  = trace w
    ++ [Call Groq
          (is_ok (chat_completions_create E (length (trace w)) App.system_message
                    (Helpers.prompt_of t)))].
Proof.
  intros Hkey [client Hclient] Ht Hstrip.
  unfold Agent._llm_fn, Helpers.get_llm_response, Helpers.reraise.
  rewrite Hkey, Hclient. simpl negb. cbv iota.
  rewrite (bool_decide_eq_false_2 _ Ht), (bool_decide_eq_false_2 _ Hstrip).
  simpl orb. cbv iota. unfold_M. red_A.
  destruct (chat_completions_create E _ _ _) as [reply|e]; red_A; [done|].
  by destruct (decide (exn_cls e = ConnectionError)).
Qed.

(** What [_llm_fn] does with the text [_stt_fn] returns when no transcript
    was obtained (GROQ_API_KEY set, Groq client built).  The empty string and
    the "trouble understanding" text are recognised: no Groq call, the
    canned request to repeat.  The "couldn't connect" text is not: it is
    sent to Groq, quoted in the prompt as what the user said. *)
Theorem agent_llm_after_failed_transcription :
  forall (E : services) (G : Helpers.globals) (audio_stream : list bytes)
         (w : world) (t : string) (w1 : world),
    truthy (Helpers.GROQ_API_KEY G) = true ->
    is_Some (Helpers.groq_client G) ->
    Agent._stt_fn E G audio_stream w = (Ok t, w1) ->
    trace w1 <> trace w ++ [Call Deepgram true] ->
    (t <> Agent.stt_no_connection
     /\ Agent._llm_fn E G t w1 = (Ok Agent.llm_clarification, w1))
    \/ (t = Agent.stt_no_connection
        /\ trace (Agent._llm_fn E G t w1).2
           = trace w1
             ++ [Call Groq
                   (is_ok (chat_completions_create E (length (trace w1))
                             App.system_message
                             (Helpers.prompt_of Agent.stt_no_connection)))]).
Proof.
  intros E G audio_stream w t w1 Hkey Hclient Hstt Hfailed.
  assert (Agent.stt_no_connection <> ""
          /\ Py.strip Agent.stt_no_connection <> Agent.stt_trouble
          /\ Py.strip Agent.stt_trouble = Agent.stt_trouble
          /\ "" <> Agent.stt_no_connection
          /\ Agent.stt_trouble <> Agent.stt_no_connection)
    as (Hne & Hstrip & Htrouble & Hempty & Hother)
    by (vm_compute; split_and!; congruence).
  unfold Agent._stt_fn, Helpers.transcribe_audio_data, Helpers.reraise in Hstt.
  unfold mbind, mret, mthrow, M_bind, M_ret, M_throw, try_except, vendor_call
    in Hstt.
  destruct (truthy (Helpers.DEEPGRAM_API_KEY G)); cbn in Hstt.
  2:{ injection Hstt as <- <-. left. split; [done|].
      apply llm_fn_on_recognised; auto. }
  destruct (Helpers.deepgram_client G); cbn in Hstt.
  2:{ injection Hstt as <- <-. right. split; [done|].
      by apply llm_fn_on_unrecognised. }
  destruct (transcribe_file E _ _ _) as [transcript|e]; cbn in Hstt.
  { injection Hstt as <- <-. by destruct Hfailed. }
  destruct (decide (exn_cls e = ConnectionError)); injection Hstt as <- <-.
  - right. split; [done|]. by apply llm_fn_on_unrecognised.
  - left. split; [done|]. apply llm_fn_on_recognised; auto.
Qed.

Lemma agent_llm_after_failed_transcription_witness :
  (Agent.stt_no_connection <> Agent.stt_no_connection
   /\ Agent._llm_fn Demo.stt_down Samples.configured Agent.stt_no_connection
        (World [] 0 [Call Deepgram false] ∅)
      = (Ok Agent.llm_clarification, World [] 0 [Call Deepgram false] ∅))
  \/ (Agent.stt_no_connection = Agent.stt_no_connection
      /\ trace (Agent._llm_fn Demo.stt_down Samples.configured
                  Agent.stt_no_connection
                  (World [] 0 [Call Deepgram false] ∅)).2
         = [Call Deepgram false]
           ++ [Call Groq
                 (is_ok (chat_completions_create Demo.stt_down 1
                           App.system_message
                           (Helpers.prompt_of Agent.stt_no_connection)))]).
Proof.
  apply (agent_llm_after_failed_transcription Demo.stt_down Samples.configured
           [Demo.zeros] Demo.fresh Agent.stt_no_connection
           (World [] 0 [Call Deepgram false] ∅)).
  - reflexivity.
  - by eexists.
  - reflexivity.
  - simpl. congruence.
Defined.

(** For a text the test of line 116 singles out (empty, or one of the two
    canned replies of [_llm_fn]) nothing is skipped when the synthesis
    works: "I'm sorry, there was an issue." is synthesised and dropped, then
    the text itself is synthesised, and the stream carries the audio of the
    text. *)
Theorem agent_tts_synthesises_skipped_text :
  forall (E : services) (G : Helpers.globals) (text : string) (w : world)
         (issue_audio : bytes) (wp : world) (audio : bytes) (w1 : world),
    truthy (Helpers.ELEVENLABS_API_KEY G) = true ->
    Agent.skipped_text text = true ->
    Helpers.synthesize_speech E G Agent.issue_message w = (Ok issue_audio, wp) ->
    Helpers.synthesize_speech E G text wp = (Ok audio, w1) ->
    exists s : Agent.stream,
      Agent._tts_fn E G text w = (Ok s, w1)
      /\ forall wi, s wi = (Ok (text_stream audio), wi).
Proof.
  intros E G text w issue_audio wp audio w1 Hkey Hskip Hissue Htext.
  unfold Agent._tts_fn. rewrite Hkey, Hskip. unfold_M. red_A.
  rewrite Hissue. red_A. rewrite Htext. red_A.
  eexists. split; [reflexivity|]. done.
Qed.

Lemma agent_tts_synthesises_skipped_text_witness :
  exists s : Agent.stream,
    Agent._tts_fn Samples.convert_missing Samples.configured
      Agent.llm_trouble Demo.fresh
    = (Ok s, World [] 0 [Call ElevenLabs false; Call ElevenLabs true;
                         Call ElevenLabs false; Call ElevenLabs true] ∅)
    /\ forall wi, s wi = (Ok (text_stream Demo.zeros), wi).
Proof.
  apply (agent_tts_synthesises_skipped_text Samples.convert_missing
           Samples.configured Agent.llm_trouble Demo.fresh Demo.zeros
           (World [] 0 [Call ElevenLabs false; Call ElevenLabs true] ∅)
           Demo.zeros);
    reflexivity.
Defined.

(** When ELEVENLABS_API_KEY is set but the client was not built (its
    constructor raised at start-up), [_tts_fn] raises nothing, calls no
    service and returns a stream that yields no chunk, whatever the text:
    the reply is silently lost. *)
Theorem agent_tts_is_silent_without_client :
  forall (E : services) (G : Helpers.globals) (text : string) (w : world),
    truthy (Helpers.ELEVENLABS_API_KEY G) = true ->
    Helpers.elevenlabs_client G = None ->
    exists s : Agent.stream,
      Agent._tts_fn E G text w = (Ok s, w)
      /\ forall wi, s wi = (Ok [], wi).
Proof.
  intros E G text w Hkey Hclient.
  unfold Agent._tts_fn, Agent.error_stream, Agent.apology_stream,
    Agent.empty_stream, Helpers.synthesize_speech.
  rewrite Hkey, Hclient. unfold_M.
  destruct (Agent.skipped_text text); cbn;
    (eexists; split; [reflexivity|]; done).
Qed.

Lemma agent_tts_is_silent_without_client_witness :
  exists s : Agent.stream,
    Agent._tts_fn Demo.all_up Samples.without_tts_client "Hi there." Demo.fresh
    = (Ok s, Demo.fresh)
    /\ forall wi, s wi = (Ok [], wi).
Proof.
  apply (agent_tts_is_silent_without_client Demo.all_up
           Samples.without_tts_client "Hi there." Demo.fresh);
    reflexivity.
Defined.

(** ** What the agent leaves alone *)

Lemma only_calls_refl v bound w : only_calls v bound w w.
Proof.
  split_and!; try done. exists []. rewrite app_nil_r.
  split_and!; [done|simpl; lia|constructor].
Qed.

Lemma only_calls_trans v n m w w1 w2 :
  only_calls v n w w1 -> only_calls v m w1 w2 -> only_calls v (n + m) w w2.
Proof.
  intros (Hl1 & Hc1 & Hf1 & calls1 & Ht1 & Hn1 & Hv1)
         (Hl2 & Hc2 & Hf2 & calls2 & Ht2 & Hn2 & Hv2).
  split_and!; try congruence.
  exists (calls1 ++ calls2). split_and!.
  - by rewrite Ht2, Ht1, app_assoc.
  - rewrite length_app. lia.
  - by apply Forall_app.
Qed.

Lemma only_calls_weaken v n m w w' :
  n <= m -> only_calls v n w w' -> only_calls v m w w'.
Proof.
  intros Hnm (Hl & Hc & Hf & calls & Ht & Hn & Hv).
  split_and!; try done. exists calls. split_and!; [done|lia|done].
Qed.

Lemma only_calls_one v ok w :
  only_calls v 1 w
    (World (metrics_log w) (clock w) (trace w ++ [Call v ok]) (files w)).
Proof.
  split_and!; try done. exists [Call v ok].
  split_and!; [done|simpl; lia|by repeat constructor].
Qed.

Lemma only_calls_two v ok1 ok2 w :
  only_calls v 2 w
    (World (metrics_log w) (clock w)
       ((trace w ++ [Call v ok1]) ++ [Call v ok2]) (files w)).
Proof.
  split_and!; try done. exists [Call v ok1; Call v ok2].
  split_and!; [by rewrite <- app_assoc|simpl; lia|by repeat constructor].
Qed.

Lemma synthesize_speech_only_calls E G text w :
  only_calls ElevenLabs 2 w (Helpers.synthesize_speech E G text w).2.
Proof.
  unfold Helpers.synthesize_speech. unfold_M.
  destruct (Helpers.elevenlabs_client G); cbn -[Py.contains];
    [|apply only_calls_refl].
  destruct (text_to_speech_convert E _ _ _) as [audio|e]; cbn -[Py.contains];
    [apply (only_calls_weaken _ 1); [lia|apply only_calls_one]|].
  destruct (decide _); cbn -[Py.contains];
    [|apply (only_calls_weaken _ 1); [lia|apply only_calls_one]].
  destruct (_ || _); cbn -[Py.contains];
    [|apply (only_calls_weaken _ 1); [lia|apply only_calls_one]].
  destruct (generate E _ _ _ _); cbn -[Py.contains]; apply only_calls_two.
Qed.

(** The three stages of the agent record nothing: whatever the services
    do, each leaves the metrics log, the clock and the files as they were
    and calls only its own vendor, [_stt_fn] and [_llm_fn] at most once and
    [_tts_fn] at most four times; reading the stream [_tts_fn] returned adds
    at most two ElevenLabs calls. *)
Theorem agent_stages_only_call_their_vendor :
  forall (E : services) (G : Helpers.globals) (audio_stream : list bytes)
         (transcription text : string) (w : world),
    only_calls Deepgram 1 w (Agent._stt_fn E G audio_stream w).2
    /\ only_calls Groq 1 w (Agent._llm_fn E G transcription w).2
    /\ only_calls ElevenLabs 4 w (Agent._tts_fn E G text w).2
    /\ match Agent._tts_fn E G text w with
       | (Ok s, _) => forall wi, only_calls ElevenLabs 2 wi (s wi).2
       | (Raise _, _) => True
       end.
Proof.
  intros E G audio_stream transcription text w. split_and!.
  - unfold Agent._stt_fn, Helpers.transcribe_audio_data, Helpers.reraise.
    unfold_M. red_A.
    repeat case_step_A;
      first [apply only_calls_one
            | apply (only_calls_weaken _ 0); [lia|apply only_calls_refl]].
  - unfold Agent._llm_fn, Helpers.get_llm_response, Helpers.reraise.
    unfold_M. red_A.
    repeat case_step_A;
      first [apply only_calls_one
            | apply (only_calls_weaken _ 0); [lia|apply only_calls_refl]].
  - unfold Agent._tts_fn. unfold_M. red_A.
    destruct (truthy _); red_A; [|apply only_calls_refl].
    destruct (Agent.skipped_text text); red_A.
    + pose proof (synthesize_speech_only_calls E G Agent.issue_message w) as H1.
      destruct (Helpers.synthesize_speech E G Agent.issue_message w)
        as [[issue_audio|e0] wp]; red_A.
      * pose proof (synthesize_speech_only_calls E G text wp) as H2.
        destruct (Helpers.synthesize_speech E G text wp) as [[audio|e] w1];
          red_A; [|destruct (decide _)];
          apply (only_calls_trans _ 2 2 _ wp); assumption.
      * apply (only_calls_weaken _ 2); [lia|assumption].
    + pose proof (synthesize_speech_only_calls E G text w) as H2.
      destruct (Helpers.synthesize_speech E G text w) as [[audio|e] w1];
        red_A; [|destruct (decide _)];
        (apply (only_calls_weaken _ 2); [lia|assumption]).
  - assert (forall message wi,
              only_calls ElevenLabs 2 wi (Agent.apology_stream E G message wi).2)
      as Hapology.
    { intros message wi. rewrite apology_stream_run.
      pose proof (synthesize_speech_only_calls E G message wi) as H.
      by destruct (Helpers.synthesize_speech E G message wi) as [[?|?] ?]. }
    unfold Agent._tts_fn. unfold_M. red_A.
    destruct (truthy _); red_A; [|done].
    destruct (Agent.skipped_text text); red_A.
    + destruct (Helpers.synthesize_speech E G Agent.issue_message w)
        as [[issue_audio|e0] wp]; red_A.
      * destruct (Helpers.synthesize_speech E G text wp) as [[audio|e] w1];
          red_A; [|destruct (decide _)]; intros wi;
          first [apply Hapology
                | apply (only_calls_weaken _ 0); [lia|apply only_calls_refl]].
      * intros wi. apply (only_calls_weaken _ 0); [lia|apply only_calls_refl].
    + destruct (Helpers.synthesize_speech E G text w) as [[audio|e] w1];
        red_A; [|destruct (decide _)]; intros wi;
        first [apply Hapology
              | apply (only_calls_weaken _ 0); [lia|apply only_calls_refl]].
Qed.

(** ** Start-up of the web application (app.py, lines 14-31 and 66-72) *)

(** After start-up [DEEPGRAM_AVAILABLE] holds exactly when the client
    [deepgram] is bound, and that is exactly when the installed SDK has
    [DeepgramClient], one of the two import styles worked, and the
    constructor did not raise.  An SDK that only has the legacy class
    [Deepgram] therefore never gives an available service: the fallback
    import succeeds, but the client is built with the unbound name
    [DeepgramClient]. *)
Theorem deepgram_available_iff_client_built :
  forall (E : services) (installed : App.sdk) (key : option string)
         (voice_id : string),
    let G := App.init E installed key voice_id in
    (App.DEEPGRAM_AVAILABLE G = true <-> is_Some (App.deepgram G))
    /\ (App.DEEPGRAM_AVAILABLE G = true
        <-> App.has_DeepgramClient installed = true
            /\ (App.has_PrerecordedOptions installed = true
                \/ App.has_Deepgram installed = true)
            /\ is_ok (DeepgramClient E key) = true)
    /\ App.MODERN_DEEPGRAM G
       = App.has_DeepgramClient installed && App.has_PrerecordedOptions installed
    /\ App.ELEVENLABS_VOICE_ID G = voice_id.
Proof.
  intros E [client options legacy] key voice_id G. subst G.
  unfold App.init. simpl.
  destruct client, options, legacy; simpl;
    try destruct (DeepgramClient E key); simpl;
    split_and!; try reflexivity; unfold is_Some;
    first [ by (split; [eauto|])
          | by (split; [|intros [? ?]])
          | intuition congruence ].
Qed.
